(** * InfoNest: the access-control core

    Two parts of the application carry its access-control model:

    - the Firestore security rules ([firestore.rules]): per-collection
      [allow] statements evaluated by the hosted rules engine on every
      request;
    - the session permission cache of [src/contexts/AuthContext.tsx]:
      [generatePermissions], the expiring [localStorage] cache and
      [loadUserProfile].

    Both are embedded below as executable definitions, followed by the
    properties of the specification. *)

From Stdlib Require Import ZArith String Ascii List Bool Lia.
From stdpp Require Import base option gmap strings pretty.

Local Open Scope string_scope.
Local Open Scope Z_scope.

(** ** The rules language *)

Module Rules.

(** Values stored in document fields and produced by rule expressions. *)
Inductive value :=
| VNull
| VBool (b : bool)
| VInt (n : Z)
| VStr (s : string).

#[global] Instance value_eq_dec : EqDecision value.
Proof. solve_decision. Defined.

(** [resource.data]: a document is a map from field names to values. *)
Abbreviation doc := (gmap string value).

(** The request kinds of the engine, and the keywords an [allow] statement
    may list.  [read] stands for [get] and [list]; [write] stands for
    [create], [update] and [delete]. *)
Inductive operation := OpGet | OpList | OpCreate | OpUpdate | OpDelete.

Inductive keyword := Read | Write | Get | List | Create | Update | Delete.

#[global] Instance operation_eq_dec : EqDecision operation.
Proof. solve_decision. Defined.

Definition covers (k : keyword) (o : operation) : bool :=
  match k, o with
  | Read, (OpGet | OpList) => true
  | Write, (OpCreate | OpUpdate | OpDelete) => true
  | Get, OpGet | List, OpList | Create, OpCreate
  | Update, OpUpdate | Delete, OpDelete => true
  | _, _ => false
  end.

(** What a condition can see: [request.auth] (the uid, [None] when the
    requester is not signed in), the request kind, [resource] (the stored
    document, [None] for null), [request.resource] (the proposed document)
    and the [users] collection that [get()] and [exists()] read. *)
Record request := Request {
  auth : option string;
  op : operation;
  resource : option doc;
  request_resource : option doc;
  users : gmap string doc
}.

(** *** Three-valued conditions

    Evaluating an expression yields a value or fails (a field that is not
    there, [.data] of null, an index out of range): [None] is the failure.
    The rules language is built on the Common Expression Language, whose
    [&&] and [||] absorb a failed operand when the other one decides the
    result. An [allow] statement grants only when its condition is [true]. *)

Definition and3 (a b : option bool) : option bool :=
  match a, b with
  | Some false, _ | _, Some false => Some false
  | Some true, Some true => Some true
  | _, _ => None
  end.

Definition or3 (a b : option bool) : option bool :=
  match a, b with
  | Some true, _ | _, Some true => Some true
  | Some false, Some false => Some false
  | _, _ => None
  end.

Definition not3 (a : option bool) : option bool := negb <$> a.

(** [a == b], written [a =?= b] below *)
Definition eq3 (a b : option value) : option bool :=
  x ← a; y ← b; Some (bool_decide (x = y)).

(** [a in [v1, ..., vn]] *)
Definition in_list (a : option value) (l : list value) : option bool :=
  x ← a; Some (bool_decide (x ∈ l)).

(** ['k' in r.data] *)
Definition has_field (k : string) (r : option doc) : option bool :=
  d ← r; Some (bool_decide (is_Some (d !! k))).

(** [r.data.k] *)
Definition data_field (r : option doc) (k : string) : option value :=
  d ← r; d !! k.

(** [r != null] *)
Definition not_null {A} (r : option A) : option bool :=
  Some (bool_decide (is_Some r)).

(** [request.auth.uid] *)
Definition auth_uid (rq : request) : option value := VStr <$> auth rq.

(** [get(/databases/$(database)/documents/users/$(request.auth.uid))] *)
Definition get_user (rq : request) : option doc :=
  uid ← auth rq; users rq !! uid.

(** [exists(/databases/$(database)/documents/users/$(request.auth.uid))] *)
Definition exists_user (rq : request) : option bool :=
  uid ← auth rq; Some (bool_decide (is_Some (users rq !! uid))).

(** [s.size()], [s[i:j]], [s[i]] and [a > b] on strings and integers; a
    string is taken as its sequence of characters. *)
Definition size (s : option value) : option value :=
  v ← s; match v with
         | VStr x => Some (VInt (Z.of_nat (String.length x)))
         | _ => None
         end.

Definition slice (s i j : option value) : option value :=
  v ← s; a ← i; b ← j;
  match v, a, b with
  | VStr x, VInt lo, VInt hi =>
      if ((0 <=? lo) && (lo <=? hi) && (hi <=? Z.of_nat (String.length x)))%Z
      then Some (VStr (substring (Z.to_nat lo) (Z.to_nat (hi - lo)) x))
      else None
  | _, _, _ => None
  end.

Definition index (s i : option value) : option value :=
  v ← s; a ← i;
  match v, a with
  | VStr x, VInt n =>
      if (0 <=? n)%Z then (λ c, VStr (String c "")) <$> String.get (Z.to_nat n) x
      else None
  | _, _ => None
  end.

(** String and integer literals. *)
Definition str (s : string) : option value := Some (VStr s).
Definition int (n : Z) : option value := Some (VInt n).

Definition gt3 (a b : option value) : option bool :=
  x ← a; y ← b;
  match x, y with
  | VInt m, VInt n => Some (n <? m)%Z
  | _, _ => None
  end.

Declare Scope rules_scope.
Delimit Scope rules_scope with rules.
Infix "&&" := and3 : rules_scope.
Infix "||" := or3 : rules_scope.
Infix "=?=" := eq3 (at level 30, no associativity) : rules_scope.
Notation "! a" := (not3 a) (at level 35, right associativity) : rules_scope.

(** *** [allow] statements

    A statement lists keywords and a condition; a request is allowed by a
    [match] block when some statement covers its kind with a condition that
    evaluates to [true]. Nothing else allows it. *)
Record allow := Allow {
  keywords : list keyword;
  condition : request → option bool
}.

Definition grants (a : allow) (rq : request) : bool :=
  existsb (λ k, covers k (op rq)) (keywords a)
  && bool_decide (condition a rq = Some true).

Definition allowed (rules : list allow) (rq : request) : bool :=
  existsb (λ a, grants a rq) rules.

(** [get(...users/$(request.auth.uid)).data.role] *)
Definition caller_role (rq : request) : option value :=
  data_field (get_user rq) "role".

(** The role stored in the profile document of [uid]. *)
Definition stored_role (db : gmap string doc) (uid : string) : option value :=
  data_field (db !! uid) "role".

Local Open Scope rules_scope.

(** ** The collections *)

(** [match /articles/{articleId}] *)
Definition articles : list allow :=
  [ Allow [Read] (λ rq,
      data_field (resource rq) "status" =?= str "published");
    Allow [Read] (λ rq,
      not_null (auth rq) &&
      (auth_uid rq =?= data_field (resource rq) "authorId" ||
       caller_role rq =?= str "admin"));
    Allow [Create] (λ rq,
      not_null (auth rq) &&
      in_list (caller_role rq) [VStr "infowriter"; VStr "admin"] &&
      auth_uid rq =?= data_field (request_resource rq) "authorId");
    Allow [Update] (λ rq,
      not_null (auth rq) &&
      (auth_uid rq =?= data_field (resource rq) "authorId" ||
       caller_role rq =?= str "admin"));
    Allow [Delete] (λ rq,
      not_null (auth rq) &&
      (auth_uid rq =?= data_field (resource rq) "authorId" ||
       caller_role rq =?= str "admin")) ].

(** [match /writerRequests/{requestId}] *)
Definition writerRequests : list allow :=
  [ Allow [Read] (λ rq,
      not_null (auth rq) &&
      (auth_uid rq =?= data_field (resource rq) "userId" ||
       caller_role rq =?= str "admin"));
    Allow [Create] (λ rq,
      not_null (auth rq) &&
      auth_uid rq =?= data_field (request_resource rq) "userId");
    Allow [Update] (λ rq,
      not_null (auth rq) &&
      caller_role rq =?= str "admin") ].

(** [match /users/{userId}] *)
Definition users_rules (userId : string) : list allow :=
  [ Allow [Read] (λ rq, not_null (auth rq));
    Allow [Create] (λ rq,
      not_null (auth rq) && auth_uid rq =?= str userId);
    Allow [Update] (λ rq,
      not_null (auth rq) && auth_uid rq =?= str userId &&
      (! has_field "role" (request_resource rq) ||
       data_field (request_resource rq) "role"
         =?= data_field (resource rq) "role"));
    Allow [Update] (λ rq,
      not_null (auth rq) &&
      exists_user rq &&
      caller_role rq =?= str "admin") ].

(** [match /savedArticles/{savedArticleId}] *)
Definition savedArticles (savedArticleId : string) : list allow :=
  [ Allow [Read; Write; Create; Delete] (λ rq,
      not_null (auth rq) && (
        (gt3 (size (str savedArticleId)) (size (auth_uid rq)) &&
         slice (str savedArticleId) (int 0) (size (auth_uid rq))
           =?= auth_uid rq &&
         index (str savedArticleId) (size (auth_uid rq)) =?= str "_") ||
        (not_null (resource rq) &&
         auth_uid rq =?= data_field (resource rq) "userId") ||
        (not_null (request_resource rq) &&
         auth_uid rq =?= data_field (request_resource rq) "userId")));
    Allow [List] (λ rq, not_null (auth rq));
    Allow [Read; Write; List] (λ rq,
      not_null (auth rq) &&
      exists_user rq &&
      caller_role rq =?= str "admin") ].

(** [match /notifications/{notificationId}] *)
Definition notifications : list allow :=
  [ Allow [Read] (λ rq,
      not_null (auth rq) &&
      auth_uid rq =?= data_field (resource rq) "userId");
    Allow [Update; Delete] (λ rq,
      not_null (auth rq) &&
      auth_uid rq =?= data_field (resource rq) "userId");
    Allow [Create] (λ rq,
      not_null (auth rq) &&
      (caller_role rq =?= str "admin" ||
       auth_uid rq =?= data_field (request_resource rq) "userId"));
    Allow [Read] (λ rq,
      not_null (auth rq) &&
      exists_user rq &&
      caller_role rq =?= str "admin") ].

(** [match /userActivity/{activityId}] *)
Definition userActivity : list allow :=
  [ Allow [Create] (λ rq, not_null (auth rq));
    Allow [Read] (λ rq,
      not_null (auth rq) &&
      (auth_uid rq =?= data_field (resource rq) "userId" ||
       caller_role rq =?= str "admin")) ].

(** A request on [/users/{userId}]: the stored document is the one the
    [users] collection holds under that id, the same collection [get()]
    reads the caller's profile from. *)
Definition users_request (db : gmap string doc) (who : option string)
    (o : operation) (userId : string) (proposed : option doc) : request :=
  {| auth := who; op := o; resource := db !! userId;
     request_resource := proposed; users := db |}.

Definition users_allowed (db : gmap string doc) (who : option string)
    (o : operation) (userId : string) (proposed : option doc) : bool :=
  allowed (users_rules userId) (users_request db who o userId proposed).

End Rules.

(** ** The session permission cache *)

Module AuthContext.

Record UserProfile := {
  uid : string;
  email : string;
  displayName : string;
  role : string;
  emailVerified : bool;
  profilePicture : string;
  createdAt : option Z;
  updatedAt : option Z;
  requestedWriterAccess : option bool
}.

Record CachedPermissions := {
  canCreateArticles : bool;
  canManageUsers : bool;
  canAccessAdmin : bool;
  canEditAnyArticle : bool;
  canDeleteArticles : bool;
  canApproveWriters : bool;
  canViewAnalytics : bool;
  dashboardRoute : string
}.

(** Cache keys for localStorage *)
Definition USER_PROFILE : string := "infonest_user_profile".
Definition PERMISSIONS : string := "infonest_permissions".
Definition LAST_UPDATED : string := "infonest_cache_updated".

(** [Object.values(CACHE_KEYS)] *)
Definition CACHE_KEYS : list string := [USER_PROFILE; PERMISSIONS; LAST_UPDATED].

(** Cache expiry time (5 minutes), in milliseconds *)
Definition CACHE_EXPIRY : Z := 5 * 60 * 1000.

Definition basePermissions : CachedPermissions :=
  {| canCreateArticles := false;
     canManageUsers := false;
     canAccessAdmin := false;
     canEditAnyArticle := false;
     canDeleteArticles := false;
     canApproveWriters := false;
     canViewAnalytics := false;
     dashboardRoute := "/dashboard" |}.

(** The [switch] on the role string; [case 'user'] falls into [default].
    The spread [...basePermissions] copies every field that the literal
    does not set afterwards. *)
Definition generatePermissions (role : string) : CachedPermissions :=
  if String.eqb role "admin" then
    {| canCreateArticles := true;
       canManageUsers := true;
       canAccessAdmin := true;
       canEditAnyArticle := true;
       canDeleteArticles := true;
       canApproveWriters := true;
       canViewAnalytics := true;
       dashboardRoute := "/dashboard" |}
  else if String.eqb role "infowriter" then
    {| canCreateArticles := true;
       canManageUsers := canManageUsers basePermissions;
       canAccessAdmin := canAccessAdmin basePermissions;
       canEditAnyArticle := false;
       canDeleteArticles := canDeleteArticles basePermissions;
       canApproveWriters := canApproveWriters basePermissions;
       canViewAnalytics := false;
       dashboardRoute := "/dashboard" |}
  else
    {| canCreateArticles := canCreateArticles basePermissions;
       canManageUsers := canManageUsers basePermissions;
       canAccessAdmin := canAccessAdmin basePermissions;
       canEditAnyArticle := canEditAnyArticle basePermissions;
       canDeleteArticles := canDeleteArticles basePermissions;
       canApproveWriters := canApproveWriters basePermissions;
       canViewAnalytics := canViewAnalytics basePermissions;
       dashboardRoute := "/dashboard" |}.

(** The signed-in account as the auth provider reports it. *)
Record User := {
  user_uid : string;
  user_email : option string;
  user_displayName : option string;
  user_emailVerified : bool
}.

(** A field read with [?.toDate()]: missing, a timestamp, or a value
    without a [toDate] method. *)
Inductive date_field := NoDate | Timestamp (millis : Z) | NotATimestamp.

(** [profileSnap.data()]: the fields of the profile document the code reads. *)
Record DocumentData := {
  data_displayName : option string;
  data_role : option string;
  data_profilePicture : option string;
  data_createdAt : date_field;
  data_updatedAt : date_field;
  data_requestedWriterAccess : option bool
}.

(** The provider's [useState] cells and the browser's [localStorage]. *)
Record state := {
  user : option User;
  userProfile : option UserProfile;
  permissions : option CachedPermissions;
  loading : bool;
  profileLoading : bool;
  localStorage : gmap string string
}.

Definition initial (ls : gmap string string) : state :=
  {| user := None; userProfile := None; permissions := None;
     loading := true; profileLoading := false; localStorage := ls |}.

(** *** Computations that may throw *)

Inductive outcome (A : Type) :=
| Returned (a : A)
| Thrown (error : string).
Arguments Returned {A} a.
Arguments Thrown {A} error.

Definition M (A : Type) : Type := state → outcome A * state.

#[global] Instance M_ret : MRet M := λ A a s, (Returned a, s).

#[global] Instance M_bind : MBind M := λ A B k m s,
  match m s with
  | (Returned a, s') => k a s'
  | (Thrown e, s') => (Thrown e, s')
  end.

(** The settled result of an awaited promise. *)
Definition await {A} (r : outcome A) : M A := λ s, (r, s).

Definition throw {A} (error : string) : M A := λ s, (Thrown error, s).

(** [try { body } catch (error) { handler }] *)
Definition try_catch {A} (body : M A) (handler : string → M A) : M A :=
  λ s, match body s with
       | (Returned a, s') => (Returned a, s')
       | (Thrown e, s') => handler e s'
       end.

(** [try { body } finally { final }]: [final] runs on both exits, and the
    exit of [body] stands unless [final] itself throws. *)
Definition try_finally {A} (body : M A) (final : M unit) : M A :=
  λ s, match body s with
       | (r, s1) => match final s1 with
                    | (Returned _, s2) => (r, s2)
                    | (Thrown e, s2) => (Thrown e, s2)
                    end
       end.

(** The state a computation leaves behind. *)
Definition run {A} (m : M A) (s : state) : state := snd (m s).

Definition setUser (v : option User) : M unit := λ s,
  (Returned (),
   {| user := v; userProfile := userProfile s; permissions := permissions s;
      loading := loading s; profileLoading := profileLoading s;
      localStorage := localStorage s |}).

Definition setUserProfile (v : option UserProfile) : M unit := λ s,
  (Returned (),
   {| user := user s; userProfile := v; permissions := permissions s;
      loading := loading s; profileLoading := profileLoading s;
      localStorage := localStorage s |}).

Definition setPermissions (v : option CachedPermissions) : M unit := λ s,
  (Returned (),
   {| user := user s; userProfile := userProfile s; permissions := v;
      loading := loading s; profileLoading := profileLoading s;
      localStorage := localStorage s |}).

Definition setLoading (v : bool) : M unit := λ s,
  (Returned (),
   {| user := user s; userProfile := userProfile s;
      permissions := permissions s;
      loading := v; profileLoading := profileLoading s;
      localStorage := localStorage s |}).

Definition setProfileLoading (v : bool) : M unit := λ s,
  (Returned (),
   {| user := user s; userProfile := userProfile s;
      permissions := permissions s;
      loading := loading s; profileLoading := v;
      localStorage := localStorage s |}).

(** [localStorage.getItem], [setItem] and [removeItem]; the store is taken
    to be available, so these calls return. *)
Definition getItem (key : string) : M (option string) := λ s,
  (Returned (localStorage s !! key), s).

Definition modifyStorage (f : gmap string string → gmap string string)
    : M unit := λ s,
  (Returned (),
   {| user := user s; userProfile := userProfile s;
      permissions := permissions s;
      loading := loading s; profileLoading := profileLoading s;
      localStorage := f (localStorage s) |}).

Definition setItem (key v : string) : M unit := modifyStorage (insert key v).
Definition removeItem (key : string) : M unit := modifyStorage (delete key).

(** [Object.values(CACHE_KEYS).forEach(key => localStorage.removeItem(key))] *)
Definition clearCache : M unit :=
  fold_right (λ key rest, removeItem key ;; rest) (mret ()) CACHE_KEYS.


(** [JSON.stringify] and [JSON.parse] at the type of the cached data;
    [parse] throws on text that is not JSON. *)
Class JSON (T : Type) := {
  stringify : T → string;
  parse : string → outcome T
}.

(** JavaScript truthiness of a string that may be null or undefined. *)
Definition truthy (v : option string) : bool :=
  match v with
  | Some s => negb (String.eqb s "")
  | None => false
  end.

(** [a || b] on such strings. *)
Definition or_else (a : option string) (b : string) : string :=
  match a with
  | Some s => if String.eqb s "" then b else s
  | None => b
  end.

(** [email.split('@')[0]] *)
Fixpoint before_at (s : string) : string :=
  match s with
  | EmptyString => EmptyString
  | String c rest => if Ascii.eqb c "@" then EmptyString
                     else String c (before_at rest)
  end.

(** [field?.toDate()] *)
Definition toDate (f : date_field) : M (option Z) :=
  match f with
  | NoDate => mret None
  | Timestamp t => mret (Some t)
  | NotATimestamp => throw "TypeError: toDate is not a function"
  end.

(** The world around one run of [loadUserProfile]: what
    [firebaseUser.reload()] settles to (the refreshed account), what
    [getDoc] settles to for the profile document of a uid ([None] is a
    snapshot whose [exists()] is false), and the clock readings of the two
    cache writes. *)
Record env := {
  reload : User → outcome User;
  getDoc : string → outcome (option DocumentData);
  now_profile : Z;
  now_permissions : Z
}.

Section Platform.
(** [parseInt] ([None] is NaN) and [Number.prototype.toString]. *)
Variable parseInt : string → option Z.
Variable toString : Z → string.

(** [cacheAge > CACHE_EXPIRY], false when the age is NaN. *)
Definition expired (now : Z) (lastUpdated : string) : bool :=
  match parseInt lastUpdated with
  | Some t => (CACHE_EXPIRY <? now - t)%Z
  | None => false
  end.

Section Generic.
Context {T : Type} `{!JSON T}.

Definition getCachedData (key : string) (now : Z) : M (option T) :=
  try_catch
    (cached ← getItem key;
     if negb (truthy cached) then mret None else
     lastUpdated ← getItem LAST_UPDATED;
     if negb (truthy lastUpdated) then mret None else
     if expired now (default "" lastUpdated) then
       (* Cache expired, clear it *)
       clearCache ;; mret None
     else
       v ← await (parse (default "" cached)); mret (Some v))
    (λ error, mret None).

Definition setCachedData (key : string) (data : T) (now : Z) : M unit :=
  try_catch
    (setItem key (stringify data) ;;
     setItem LAST_UPDATED (toString now))
    (λ error, mret ()).
End Generic.

Context {profile_json : JSON UserProfile}
        {permissions_json : JSON CachedPermissions}.

(** Initialize from cache *)
Definition initFromCache (now1 now2 : Z) : M unit :=
  cachedProfile ← getCachedData USER_PROFILE now1;
  cachedPermissions ← getCachedData PERMISSIONS now2;
  match cachedProfile, cachedPermissions with
  | Some p, Some c => setUserProfile (Some p) ;; setPermissions (Some c)
  | _, _ => mret ()
  end.

(** The profile object built from the account and the document. *)
Definition buildProfile (u : User) (data : DocumentData) : M UserProfile :=
  created ← toDate (data_createdAt data);
  updated ← toDate (data_updatedAt data);
  mret {| uid := user_uid u;
          email := or_else (user_email u) "";
          displayName :=
            or_else (data_displayName data)
              (or_else (user_displayName u)
                 (or_else (before_at <$> user_email u) ""));
          role := or_else (data_role data) "user";
          emailVerified := user_emailVerified u;
          profilePicture := or_else (data_profilePicture data) "";
          createdAt := created;
          updatedAt := updated;
          requestedWriterAccess := data_requestedWriterAccess data |}.

(** Derive, cache and publish the profile and its permissions. *)
Definition publishProfile (u : User) (data : DocumentData)
    (now1 now2 : Z) : M unit :=
  profile ← buildProfile u data;
  let userPermissions := generatePermissions (role profile) in
  setCachedData USER_PROFILE profile now1 ;;
  setCachedData PERMISSIONS userPermissions now2 ;;
  setUserProfile (Some profile) ;;
  setPermissions (Some userPermissions).

Definition loadUserProfile (e : env) (firebaseUser : User) : M unit :=
  try_finally
    (try_catch
       (setProfileLoading true ;;
        refreshed ← await (reload e firebaseUser);
        profileSnap ← await (getDoc e (user_uid refreshed));
        match profileSnap with
        | Some data =>
            publishProfile refreshed data (now_profile e) (now_permissions e)
        | None =>
            setUserProfile None ;; setPermissions None ;; clearCache
        end)
       (λ error,
          setUserProfile None ;; setPermissions None ;; clearCache))
    (setProfileLoading false).

(** [auth.currentUser] is passed in. *)
Definition refreshProfile (currentUser : option User) (e : env) : M unit :=
  match currentUser with
  | None => mret ()
  | Some u => clearCache ;; loadUserProfile e u
  end.

(** Auth state listener *)
Definition onAuthStateChanged (e : env) (firebaseUser : option User)
    : M unit :=
  setLoading true ;;
  setUser firebaseUser ;;
  match firebaseUser with
  | Some u => loadUserProfile e u
  | None =>
      setUser None ;; setUserProfile None ;; setPermissions None ;;
      clearCache
  end ;;
  setLoading false.

(** Real-time profile updates: the [onSnapshot] callback of the profile
    document, registered for the signed-in [user]. *)
Definition onProfileSnapshot (u : User) (snapshot : option DocumentData)
    (now1 now2 : Z) : M unit :=
  match snapshot with
  | Some data => publishProfile u data now1 now2
  | None => mret ()
  end.

(** The provider moves from one committed state to the next.  The
    application is mounted with [createRoot], so the updates a callback
    makes in one run are committed together; an async callback is taken
    whole, since before its awaits it touches the loading flags, the
    account and the store only. *)
Inductive step : state → state → Prop :=
| step_mount s now1 now2 :
    step s (run (initFromCache now1 now2) s)
| step_auth s e firebaseUser :
    step s (run (onAuthStateChanged e firebaseUser) s)
| step_snapshot s u snapshot now1 now2 :
    user s = Some u →
    step s (run (onProfileSnapshot u snapshot now1 now2) s)
| step_refresh s currentUser e :
    step s (run (refreshProfile currentUser e) s).

Definition reachable (ls : gmap string string) (s : state) : Prop :=
  rtc step (initial ls) s.
End Platform.

(** Every cache key is gone from the store. *)
Definition cache_cleared (s : state) : Prop :=
  ∀ key, key ∈ CACHE_KEYS → localStorage s !! key = None.

(** The profile cannot be loaded: a fetch throws or the profile document
    does not exist. *)
Definition load_fails (e : env) (firebaseUser : User) : Prop :=
  (∃ error, reload e firebaseUser = Thrown error)
  ∨ (∃ refreshed, reload e firebaseUser = Returned refreshed
       ∧ ((∃ error, getDoc e (user_uid refreshed) = Thrown error)
          ∨ getDoc e (user_uid refreshed) = Returned None)).

(** Profile and permissions are both set or both null. *)
Definition coherent (s : state) : Prop :=
  is_Some (permissions s) ↔ is_Some (userProfile s).

(** What one callback may do to the pair: leave it, publish both, or drop
    both. *)
Definition session_update (s s' : state) : Prop :=
  (userProfile s' = userProfile s ∧ permissions s' = permissions s)
  ∨ (is_Some (userProfile s') ∧ is_Some (permissions s'))
  ∨ (userProfile s' = None ∧ permissions s' = None).

(** Cached role checks *)
Definition isAdmin (s : state) : bool :=
  match permissions s with
  | Some p => canAccessAdmin p || false
  | None => false
  end.

Definition isInfoWriter (s : state) : bool :=
  match permissions s with
  | Some p => canCreateArticles p && negb (canAccessAdmin p) || false
  | None => false
  end.

Definition isUser (s : state) : bool :=
  match userProfile s with
  | Some p => String.eqb (role p) "user" || false
  | None => false
  end.

(** Permission methods (using cached data) *)
Definition hasRole (s : state) (r : string) : bool :=
  match userProfile s with
  | Some p => String.eqb (role p) r
  | None => false
  end.

Definition hasAnyRole (s : state) (roles : list string) : bool :=
  match userProfile s with
  | Some p => existsb (String.eqb (role p)) roles
  | None => false
  end.

Definition canEditArticle (s : state) (authorId : string) : bool :=
  match userProfile s, permissions s with
  | Some p, Some c => String.eqb (uid p) authorId || canEditAnyArticle c
  | _, _ => false
  end.

Definition getDashboardRoute (s : state) : string :=
  or_else (dashboardRoute <$> permissions s) "/dashboard".

(** What [?.toDate()] yields on a date field, when it does not throw. *)
Definition date_value (f : date_field) : option (option Z) :=
  match f with
  | NoDate => Some None
  | Timestamp t => Some (Some t)
  | NotATimestamp => None
  end.

(** The profile object of [loadUserProfile] and of the snapshot callback,
    given the two dates. *)
Definition profile_of (u : User) (data : DocumentData)
    (created updated : option Z) : UserProfile :=
  {| uid := user_uid u;
     email := or_else (user_email u) "";
     displayName :=
       or_else (data_displayName data)
         (or_else (user_displayName u)
            (or_else (before_at <$> user_email u) ""));
     role := or_else (data_role data) "user";
     emailVerified := user_emailVerified u;
     profilePicture := or_else (data_profilePicture data) "";
     createdAt := created;
     updatedAt := updated;
     requestedWriterAccess := data_requestedWriterAccess data |}.

End AuthContext.

(** The session mirrors the users collection when the profile document
    stored under the profile's uid carries the profile's role. *)
Definition mirrors (db : gmap string Rules.doc)
    (p : AuthContext.UserProfile) : Prop :=
  Rules.stored_role db (AuthContext.uid p)
  = Some (Rules.VStr (AuthContext.role p)).

(** ** Performance utilities

    The in-memory helpers of [lib/performanceOptimizer.ts]. *)
Module PerformanceOptimizer.
Local Open Scope list_scope.

(** *** [DataCache]: a [Map] from keys to data with a time to live *)
Module DataCache.
Section Cache.
Context {T : Type}.

Record entry := Entry {
  data : T;
  timestamp : Z;
  ttl : Z
}.

(** [ttlMs: number = 5 * 60 * 1000] *)
Definition default_ttl : Z := 5 * 60 * 1000.

(** [DataCache.set(key, data, ttlMs)] at clock reading [now]; [None] is the
    omitted argument. *)
Definition set (key : string) (d : T) (ttlMs : option Z) (now : Z)
    (cache : gmap string entry) : gmap string entry :=
  <[key := {| data := d; timestamp := now; ttl := default default_ttl ttlMs |}]>
    cache.

Definition isExpired (now : Z) (cached : entry) : bool :=
  (ttl cached <? now - timestamp cached)%Z.

(** [DataCache.get(key)]: the data, or null, and the map it leaves. *)
Definition get (key : string) (now : Z) (cache : gmap string entry)
    : option T * gmap string entry :=
  match cache !! key with
  | None => (None, cache)
  | Some cached =>
      if isExpired now cached then (None, delete key cache)
      else (Some (data cached), cache)
  end.

Definition clear (cache : gmap string entry) : gmap string entry := ∅.

(** [DataCache.clearExpired()]: every entry whose age exceeds its [ttl] is
    deleted. *)
Definition clearExpired (now : Z) (cache : gmap string entry)
    : gmap string entry :=
  filter (λ kc, isExpired now kc.2 = false) cache.
End Cache.
Arguments entry : clear implicits.
End DataCache.

(** *** [PerformanceMonitor]

    [performance.now()] readings are numbers of a type [num] with a zero, a
    subtraction and the test [!x] (true of 0 and NaN). *)
Module PerformanceMonitor.
Section Monitor.
Context {num : Type}.
Variable zero : num.
Variable sub : num → num → num.
Variable falsy : num → bool.

Definition startMeasurement (name : string) (now : num)
    (measurements : gmap string num) : gmap string num :=
  <[name := now]> measurements.

(** The duration returned, and the map left. *)
Definition endMeasurement (name : string) (now : num)
    (measurements : gmap string num) : num * gmap string num :=
  match measurements !! name with
  | None => (zero, measurements)
  | Some start =>
      if falsy start then (zero, measurements)
      else (sub now start, delete name measurements)
  end.
End Monitor.
End PerformanceMonitor.

(** *** [memoize]

    [fn] is the function wrapped and [getKey] the key of an argument list
    ([JSON.stringify] when none is given). A call returns the result, the
    cache it leaves, and whether [fn] was run. *)
Section Memoize.
Context {A R : Type}.
Variable fn : A → R.
Variable getKey : A → string.

Definition memoized (args : A) (cache : gmap string R)
    : R * gmap string R * bool :=
  let key := getKey args in
  match cache !! key with
  | Some r => (r, cache, false)
  | None =>
      let result := fn args in
      (result, <[key := result]> cache, true)
  end.

(** Every cached result is the result of [fn] on an argument list with
    that key. *)
Definition cache_sound (cache : gmap string R) : Prop :=
  ∀ k r, cache !! k = Some r → ∃ a, getKey a = k ∧ fn a = r.

(** A series of calls, from left to right: the results and the final cache. *)
Fixpoint memoized_calls (calls : list A) (cache : gmap string R)
    : list R * gmap string R :=
  match calls with
  | [] => ([], cache)
  | args :: rest =>
      let '(r, cache', _) := memoized args cache in
      let '(rs, cache'') := memoized_calls rest cache' in
      (r :: rs, cache'')
  end.
End Memoize.

(** *** [optimizeImage] *)

(** [hay.includes(needle)] *)
Fixpoint includes (needle hay : string) : bool :=
  String.prefix needle hay
  || match hay with
     | EmptyString => false
     | String _ rest => includes needle rest
     end.

Section OptimizeImage.
(** [Number.prototype.toString] and the value serializer of
    [URLSearchParams]. *)
Variable toString : Z → string.
Variable encode : string → string.

(** [if (width) params.append(name, width.toString())]: an omitted or zero
    dimension adds nothing. *)
Definition param (name : string) (v : option Z) : list string :=
  match v with
  | Some n => if (n =? 0)%Z then [] else [name +:+ "=" +:+ encode (toString n)]
  | None => []
  end.

(** [params.toString()] *)
Definition params_toString (params : list string) : string :=
  match params with
  | [] => ""
  | p :: ps => fold_left (λ acc q, acc +:+ "&" +:+ q) ps p
  end.

Definition optimizeImage (url : string) (width height : option Z) : string :=
  if String.eqb url "" then ""
  else if includes "firebasestorage.googleapis.com" url then
    let params := param "w" width ++ param "h" height in
    let separator := if includes "?" url then "&" else "?" in
    if String.eqb (params_toString params) "" then url
    else url +:+ separator +:+ params_toString params
  else url.
End OptimizeImage.

(** *** [debounce] and [throttle]

    Timers are the host's: [setTimeout] registers a callback under a fresh
    id, [clearTimeout] drops it, and the host runs a registered callback at
    some later point. *)
Section Debounce.
Context {A : Type}.

(** The closure's [timeout] variable, the pending callbacks [() =>
    func(...args)] by timer id, and the next fresh id. *)
Record debounced := Debounced {
  timeout : option nat;
  pending : gmap nat A;
  next_id : nat
}.

Definition debounce_init : debounced :=
  {| timeout := None; pending := ∅; next_id := 0 |}.

Inductive debounce_event :=
| DCall (args : A)
| DFire (id : nat).

(** One event: the state it leaves and the arguments [func] is invoked
    with, if it is. *)
Definition debounce_step (ev : debounce_event) (d : debounced)
    : debounced * option A :=
  match ev with
  | DCall args =>
      let cleared := match timeout d with
                     | Some id => delete id (pending d)
                     | None => pending d
                     end in
      ({| timeout := Some (next_id d);
          pending := <[next_id d := args]> cleared;
          next_id := S (next_id d) |}, None)
  | DFire id =>
      match pending d !! id with
      | Some args =>
          ({| timeout := timeout d; pending := delete id (pending d);
              next_id := next_id d |}, Some args)
      | None => (d, None)
      end
  end.

(** A run of events: the final state and the invocations of [func], in
    order. *)
Fixpoint debounce_run (evs : list debounce_event) (d : debounced)
    : debounced * list A :=
  match evs with
  | [] => (d, [])
  | ev :: rest =>
      let '(d', out) := debounce_step ev d in
      let '(d'', outs) := debounce_run rest d' in
      (d'', option_list out ++ outs)
  end.
(** At most one callback is pending, the one [timeout] names, and the ids
    from [next_id] on are unused. *)
Definition debounce_inv (d : debounced) : Prop :=
  (∀ id a, pending d !! id = Some a → timeout d = Some id)
  ∧ (∀ id, timeout d = Some id → (id < next_id d)%nat).
End Debounce.
Arguments debounced : clear implicits.
Arguments debounce_event : clear implicits.

Section Throttle.
Context {A : Type}.

(** The closure's [inThrottle] flag and the number of pending reset
    callbacks [() => (inThrottle = false)]. *)
Record throttled := Throttled {
  inThrottle : bool;
  resets : nat
}.

Definition throttle_init : throttled := {| inThrottle := false; resets := 0 |}.

Inductive throttle_event :=
| TCall (args : A)
| TFire.

Definition throttle_step (ev : throttle_event) (t : throttled)
    : throttled * option A :=
  match ev with
  | TCall args =>
      if negb (inThrottle t)
      then ({| inThrottle := true; resets := S (resets t) |}, Some args)
      else (t, None)
  | TFire =>
      match resets t with
      | S n => ({| inThrottle := false; resets := n |}, None)
      | O => (t, None)
      end
  end.

Fixpoint throttle_run (evs : list throttle_event) (t : throttled)
    : throttled * list A :=
  match evs with
  | [] => (t, [])
  | ev :: rest =>
      let '(t', out) := throttle_step ev t in
      let '(t'', outs) := throttle_run rest t' in
      (t'', option_list out ++ outs)
  end.
(** A reset callback is pending exactly while the flag is up. *)
Definition throttle_inv (t : throttled) : Prop :=
  resets t = if inThrottle t then 1%nat else 0%nat.

Definition is_fire (ev : throttle_event) : bool :=
  match ev with
  | TFire => true
  | TCall _ => false
  end.
End Throttle.
Arguments throttle_event : clear implicits.

End PerformanceOptimizer.

(** ** The admin dashboard's counters

    The aggregation the snapshot callbacks of [AdminDashboard] run over the
    published articles and the user documents. *)
Module AdminDashboard.

(** The fields of an article document the aggregation reads. *)
Record ArticleData := {
  category : option string;
  tags : option (list string)
}.

(** [tagsMap.set(tag, (tagsMap.get(tag) || 0) + 1)] *)
Definition countTag (tagsMap : gmap string nat) (tag : string)
    : gmap string nat :=
  <[tag := (default 0 (tagsMap !! tag) + 1)%nat]> tagsMap.

(** [if (data.tags) data.tags.forEach(...)] over the snapshot's documents. *)
Definition countTags (docs : list ArticleData) : gmap string nat :=
  fold_left
    (λ tagsMap d,
       match tags d with
       | Some ts => fold_left countTag ts tagsMap
       | None => tagsMap
       end)
    docs ∅.

(** The fields of a user document the counters read; a flag is the
    truthiness of the field. *)
Record UserData := {
  requestedWriterAccess : bool;
  role : option string;
  previousRoles : option (list string);
  uid : option string;
  privilegesRemovedAt : bool
}.

Record counters := {
  totalUsers : nat;
  legacyPendingRequests : nat;
  activeWriters : nat;
  removedWriters : nat
}.

Definition role_is (u : UserData) (r : string) : bool :=
  match role u with
  | Some x => String.eqb x r
  | None => false
  end.

(** [userData.previousRoles && userData.previousRoles.includes(userData.uid
    || doc.id) && userData.role !== "infowriter" &&
    userData.privilegesRemovedAt] *)
Definition isRemovedWriter (id : string) (u : UserData) : bool :=
  match previousRoles u with
  | Some roles =>
      existsb (String.eqb (AuthContext.or_else (uid u) id)) roles
      && negb (role_is u "infowriter")
      && privilegesRemovedAt u
  | None => false
  end.

(** The body of [usersSnapshot.forEach] on the document [id]. *)
Definition countUser (c : counters) (d : string * UserData) : counters :=
  let '(id, u) := d in
  {| totalUsers := S (totalUsers c);
     legacyPendingRequests :=
       if requestedWriterAccess u && role_is u "user"
       then S (legacyPendingRequests c) else legacyPendingRequests c;
     activeWriters :=
       if role_is u "infowriter"
       then S (activeWriters c) else activeWriters c;
     removedWriters :=
       if isRemovedWriter id u
       then S (removedWriters c) else removedWriters c |}.

Definition countUsers (docs : list (string * UserData)) : counters :=
  fold_left countUser docs
    {| totalUsers := 0; legacyPendingRequests := 0;
       activeWriters := 0; removedWriters := 0 |}.

(** How often [tag] occurs in a list, and all the tags of the documents,
    with repetitions. *)
Definition occurrences (tag : string) (ts : list string) : nat :=
  length (filter (λ t, t = tag) ts).

Definition all_tags (docs : list ArticleData) : list string :=
  concat (map (λ d, default [] (tags d)) docs).

End AdminDashboard.

(** ** A concrete platform

    Instances of the built-ins the cache code is parametrised by, used to
    run the definitions on examples. *)
Module Browser.
Import AuthContext.

Definition digit (c : ascii) : option Z :=
  let n := nat_of_ascii c in
  if ((48 <=? n) && (n <=? 57))%nat then Some (Z.of_nat (n - 48)) else None.

Fixpoint digits (acc : option Z) (s : string) : option Z :=
  match s with
  | EmptyString => acc
  | String c rest =>
      match digit c with
      | Some d => digits (Some (10 * default 0 acc + d)) rest
      | None => acc
      end
  end.

(** [parseInt] on decimal text: an optional sign and the leading digits;
    NaN when there is no digit. *)
Definition parseInt (s : string) : option Z :=
  match s with
  | String "-" rest => Z.opp <$> digits None rest
  | String "+" rest => digits None rest
  | _ => digits None s
  end.

Definition toString (n : Z) : string := pretty n.

(** Cached text that is kept as it is. *)
#[global] Instance text_json : JSON string :=
  {| stringify := id; parse := Returned |}.

(** A codec that prints a placeholder and reads nothing back: enough to
    run the paths that never parse. *)
Definition write_only (T : Type) : JSON T :=
  {| stringify := λ _, "{}"; parse := λ _, Thrown "SyntaxError" |}.

(** A line-oriented stand-in for JSON: the fields of a record, one per
    line. It reads back what it wrote as long as no field holds a line
    break. *)
Definition newline : ascii := ascii_of_nat 10.

Fixpoint split_lines (s : string) : list string :=
  match s with
  | EmptyString => [EmptyString]
  | String c rest =>
      if Ascii.eqb c newline then EmptyString :: split_lines rest
      else match split_lines rest with
           | line :: lines => String c line :: lines
           | [] => [String c EmptyString]
           end
  end.

Definition join_lines (fields : list string) : string :=
  String.concat (String newline EmptyString) fields.

Definition show_bool (b : bool) : string := if b then "true" else "false".

Definition read_bool (s : string) : option bool :=
  if String.eqb s "true" then Some true
  else if String.eqb s "false" then Some false
  else None.

Definition show_opt {X} (show : X → string) (v : option X) : string :=
  match v with
  | Some x => show x
  | None => "null"
  end.

Definition read_opt {X} (read : string → option X) (s : string)
    : option (option X) :=
  if String.eqb s "null" then Some None else Some <$> read s.

Definition permissions_lines (c : CachedPermissions) : string :=
  join_lines
    [show_bool (canCreateArticles c); show_bool (canManageUsers c);
     show_bool (canAccessAdmin c); show_bool (canEditAnyArticle c);
     show_bool (canDeleteArticles c); show_bool (canApproveWriters c);
     show_bool (canViewAnalytics c); dashboardRoute c].

Definition read_permissions (s : string) : option CachedPermissions :=
  match split_lines s with
  | [f1; f2; f3; f4; f5; f6; f7; route] =>
      b1 ← read_bool f1; b2 ← read_bool f2; b3 ← read_bool f3;
      b4 ← read_bool f4; b5 ← read_bool f5; b6 ← read_bool f6;
      b7 ← read_bool f7;
      Some {| canCreateArticles := b1; canManageUsers := b2;
              canAccessAdmin := b3; canEditAnyArticle := b4;
              canDeleteArticles := b5; canApproveWriters := b6;
              canViewAnalytics := b7; dashboardRoute := route |}
  | _ => None
  end.

Definition profile_lines (p : UserProfile) : string :=
  join_lines
    [uid p; email p; displayName p; role p; show_bool (emailVerified p);
     profilePicture p; show_opt toString (createdAt p);
     show_opt toString (updatedAt p);
     show_opt show_bool (requestedWriterAccess p)].

Definition read_profile (s : string) : option UserProfile :=
  match split_lines s with
  | [f1; f2; f3; f4; f5; f6; f7; f8; f9] =>
      verified ← read_bool f5;
      created ← read_opt parseInt f7;
      updated ← read_opt parseInt f8;
      requested ← read_opt read_bool f9;
      Some {| uid := f1; email := f2; displayName := f3; role := f4;
              emailVerified := verified; profilePicture := f6;
              createdAt := created; updatedAt := updated;
              requestedWriterAccess := requested |}
  | _ => None
  end.

Definition throw_unless {T} (v : option T) : outcome T :=
  match v with
  | Some x => Returned x
  | None => Thrown "SyntaxError"
  end.

Definition permissions_codec : JSON CachedPermissions :=
  {| stringify := permissions_lines;
     parse := λ s, throw_unless (read_permissions s) |}.

Definition profile_codec : JSON UserProfile :=
  {| stringify := profile_lines;
     parse := λ s, throw_unless (read_profile s) |}.
End Browser.

(** * Properties of the rules *)

Module RulesFacts.
Import Rules.
Local Open Scope rules_scope.

(** ** When a condition is true *)

Section Tri.
Implicit Types a b : option bool.
Implicit Types x y : option value.

Lemma and3_true a b : (a && b) = Some true ↔ a = Some true ∧ b = Some true.
Proof. destruct a as [[]|], b as [[]|]; simpl; intuition congruence. Qed.

Lemma or3_true a b : (a || b) = Some true ↔ a = Some true ∨ b = Some true.
Proof. destruct a as [[]|], b as [[]|]; simpl; intuition congruence. Qed.

Lemma not3_true a : (! a) = Some true ↔ a = Some false.
Proof. destruct a as [[]|]; simpl; intuition congruence. Qed.

Lemma eq3_true x y : (x =?= y) = Some true ↔ ∃ v, x = Some v ∧ y = Some v.
Proof.
  destruct x as [v|], y as [w|]; simpl.
  - split.
    + intros [= ->%bool_decide_eq_true]. eauto.
    + intros (? & [= ->] & [= ->]). f_equal. by apply bool_decide_eq_true.
  - split; [intros [=] | intros (? & _ & [=])].
  - split; [intros [=] | intros (? & [=] & _)].
  - split; [intros [=] | intros (? & [=] & _)].
Qed.

Lemma eq3_str_true x s : (x =?= str s) = Some true ↔ x = Some (VStr s).
Proof.
  rewrite eq3_true. unfold str.
  split; [intros (v & -> & [= ->]); done | intros ->; eauto].
Qed.

Lemma not_null_true {A} (r : option A) : not_null r = Some true ↔ is_Some r.
Proof.
  unfold not_null. rewrite (inj_iff Some), bool_decide_eq_true. done.
Qed.

Lemma in_list_true x l : in_list x l = Some true ↔ ∃ v, x = Some v ∧ v ∈ l.
Proof.
  destruct x as [v|]; simpl.
  - rewrite (inj_iff Some), bool_decide_eq_true.
    split; [eauto | intros (? & [= ->] & ?); done].
  - split; [intros [=] | intros (? & [=] & _)].
Qed.

Lemma in_writer_roles (v : value) :
  v ∈ [VStr "infowriter"; VStr "admin"]
  ↔ v = VStr "infowriter" ∨ v = VStr "admin".
Proof. rewrite !elem_of_cons, elem_of_nil. tauto. Qed.

Lemma has_field_false k (r : option doc) :
  has_field k r = Some false ↔ ∃ d, r = Some d ∧ d !! k = None.
Proof.
  destruct r as [d|]; unfold has_field; cbn [mbind option_bind].
  - rewrite (inj_iff Some). rewrite bool_decide_eq_false, <- eq_None_not_Some.
    split; [eauto | intros (? & [= <-] & ?); done].
  - split; [intros [=] | intros (? & [=] & _)].
Qed.
End Tri.

(** The admin clause, as it is written in three collections: the
    [exists()] test adds nothing to the role test. *)
Lemma admin_condition_true rq :
  (not_null (auth rq) && exists_user rq && caller_role rq =?= str "admin")
    = Some true ↔ caller_role rq = Some (VStr "admin").
Proof.
  rewrite !and3_true, not_null_true, eq3_str_true.
  split; [tauto|]. intros H. split; [|done].
  unfold caller_role, get_user, exists_user in *.
  destruct (auth rq) as [uid|]; simpl in *; [|done].
  split; [done|]. destruct (users rq !! uid); simpl in *; done.
Qed.

Lemma caller_role_stored rq uid :
  auth rq = Some uid → caller_role rq = stored_role (users rq) uid.
Proof. unfold caller_role, get_user, stored_role. by intros ->. Qed.

(** The ownership clause [r != null && uid == r.data.k]. *)
Lemma owner_field_true (r : option doc) (uid k : string) :
  (not_null r && str uid =?= data_field r k) = Some true
  ↔ data_field r k = Some (VStr uid).
Proof.
  rewrite and3_true, not_null_true, eq3_true. unfold str. split.
  - intros (_ & v & [= <-] & ?). done.
  - intros H. split; [|eauto]. destruct r; [eauto | done].
Qed.

(** Open a [match] block on a request whose kind is known. *)
Ltac unfold_rules Hop :=
  unfold allowed, grants;
  cbn [articles writerRequests users_rules savedArticles
       existsb keywords condition];
  rewrite ?Hop; cbn [covers orb andb op];
  rewrite ?orb_false_r, ?orb_true_iff, ?bool_decide_eq_true.

(** ** Articles *)

(** C4: an article can be created exactly by a signed-in requester whose
    stored role is infowriter or admin and who is the [authorId] of the
    proposed document; a create under somebody else's [authorId] is denied,
    whatever the caller's role, admin included. *)
Theorem article_create_iff (rq : request) (Hop : op rq = OpCreate) :
  (allowed articles rq = true ↔
   ∃ uid, auth rq = Some uid
          ∧ (caller_role rq = Some (VStr "infowriter")
             ∨ caller_role rq = Some (VStr "admin"))
          ∧ data_field (request_resource rq) "authorId" = Some (VStr uid))
  ∧ (∀ uid, auth rq = Some uid →
       data_field (request_resource rq) "authorId" ≠ Some (VStr uid) →
       allowed articles rq = false).
Proof.
  assert (Hiff : allowed articles rq = true ↔
   ∃ uid, auth rq = Some uid
          ∧ (caller_role rq = Some (VStr "infowriter")
             ∨ caller_role rq = Some (VStr "admin"))
          ∧ data_field (request_resource rq) "authorId" = Some (VStr uid)).
  { unfold_rules Hop.
    rewrite !and3_true, not_null_true, in_list_true, eq3_true.
    unfold auth_uid. destruct (auth rq) as [uid|]; simpl.
    - split.
      + intros ((_ & v & Hv & Hin%in_writer_roles) & w & [= <-] & Hw).
        exists uid. split; [done|]. split; [|done].
        rewrite Hv. by destruct Hin as [-> | ->]; [left | right].
      + intros (? & [= <-] & Hr & Ha). split; [split; [by eexists|]|].
        * destruct Hr as [-> | ->]; eexists; (split; [done|]);
            apply in_writer_roles; [by left | by right].
        * eauto.
    - split; [intros (_ & ? & ? & _); done | intros (? & ? & _); done]. }
  split; [done|].
  intros uid Hu Hne. apply not_true_is_false. rewrite Hiff.
  intros (uid' & Hu' & _ & Ha). congruence.
Qed.

Lemma article_create_iff_witness :
  let rq := Request (Some "ada") OpCreate None
              (Some {[ "authorId" := VStr "bob" ]})
              {[ "ada" := {[ "role" := VStr "admin" ]} ]} in
  op rq = OpCreate
  ∧ auth rq = Some "ada"
  ∧ caller_role rq = Some (VStr "admin")
  ∧ data_field (request_resource rq) "authorId" ≠ Some (VStr "ada")
  ∧ allowed articles rq = false.
Proof.
  intros rq.
  assert (Hne : data_field (request_resource rq) "authorId"
                ≠ Some (VStr "ada")) by (vm_compute; discriminate).
  split; [reflexivity|]. split; [reflexivity|]. split; [reflexivity|].
  split; [exact Hne|].
  exact (proj2 (article_create_iff rq eq_refl) "ada" eq_refl Hne).
Defined.

(** C5: an article is readable exactly when its status is published, or
    the requester is signed in and is its author or has the stored role
    admin.  So an article that is not published cannot be read without
    signing in, nor by a requester who is neither its author nor an admin. *)
Theorem article_read_iff (rq : request) (Hop : covers Read (op rq) = true) :
  let published :=
    data_field (resource rq) "status" = Some (VStr "published") in
  let author :=
    ∃ uid, auth rq = Some uid
           ∧ data_field (resource rq) "authorId" = Some (VStr uid) in
  let admin := caller_role rq = Some (VStr "admin") in
  (allowed articles rq = true
   ↔ published ∨ author ∨ (is_Some (auth rq) ∧ admin))
  ∧ (published → allowed articles rq = true)
  ∧ (¬ published → auth rq = None → allowed articles rq = false)
  ∧ (¬ published → ¬ author → ¬ admin → allowed articles rq = false).
Proof.
  intros published author admin.
  assert (Hiff : allowed articles rq = true
                 ↔ published ∨ author ∨ (is_Some (auth rq) ∧ admin)).
  { unfold published, author, admin.
    destruct (op rq) eqn:Ho; try discriminate Hop; unfold_rules Ho;
      rewrite eq3_str_true, and3_true, or3_true, not_null_true, eq3_true,
        eq3_str_true; unfold auth_uid;
      (destruct (auth rq) as [uid|]; simpl;
       [ split;
         [ intros [?|[_ [(v & [= <-] & ?)|?]]]; eauto 8
         | intros [?|[(? & [= <-] & ?)|[_ ?]]]; eauto 8 ]
       | split;
         [ intros [?|[[? [=]] _]]; eauto
         | intros [?|[(? & [=] & _)|[[? [=]] _]]]; eauto ] ]). }
  split; [done|]. split; [|split].
  - intros Hp. apply Hiff. by left.
  - intros Hnp Hna. apply not_true_is_false. rewrite Hiff.
    unfold author. rewrite Hna.
    intros [?|[(? & [=] & _)|[[? [=]] _]]]; done.
  - intros Hnp Hnau Hnad. apply not_true_is_false. rewrite Hiff.
    intros [?|[?|[_ ?]]]; done.
Qed.

Lemma article_read_iff_witness :
  let rq := Request None OpGet
              (Some {[ "status" := VStr "draft"; "authorId" := VStr "bob" ]})
              None ∅ in
  covers Read (op rq) = true
  ∧ data_field (resource rq) "status" ≠ Some (VStr "published")
  ∧ auth rq = None
  ∧ allowed articles rq = false.
Proof.
  intros rq.
  assert (Hd : data_field (resource rq) "status" ≠ Some (VStr "published"))
    by (vm_compute; discriminate).
  split; [reflexivity|]. split; [exact Hd|]. split; [reflexivity|].
  exact (proj1 (proj2 (proj2 (article_read_iff rq eq_refl))) Hd eq_refl).
Defined.

(** ** Writer requests *)

(** C10: nobody can delete a writer request, its owner and the admins
    included: the block allows read, create and update only, and a request
    that no statement allows is denied. *)
Theorem writerRequests_delete_denied
    (who : option string) (stored proposed : option doc)
    (db : gmap string doc) :
  allowed writerRequests (Request who OpDelete stored proposed db) = false.
Proof. reflexivity. Qed.

(** ** User profiles *)

(** C3: when a user updates their own profile document, the update goes
    through only if the proposed document has no [role] field, or carries
    the role the stored document has, or the user's stored role is admin.
    A self-update that proposes a different role is denied to everybody
    who is not an admin. *)
Theorem users_self_update (db : gmap string doc) (uid : string)
    (proposed : option doc) :
  let unchanged := ∃ r, data_field proposed "role" = Some r
                        ∧ stored_role db uid = Some r in
  let admin := stored_role db uid = Some (VStr "admin") in
  (users_allowed db (Some uid) OpUpdate uid proposed = true →
     has_field "role" proposed = Some false ∨ unchanged ∨ admin)
  ∧ (is_Some (data_field proposed "role") → ¬ unchanged → ¬ admin →
     users_allowed db (Some uid) OpUpdate uid proposed = false).
Proof.
  intros unchanged admin.
  assert (Himp : users_allowed db (Some uid) OpUpdate uid proposed = true →
     has_field "role" proposed = Some false ∨ unchanged ∨ admin).
  { unfold users_allowed, users_request. unfold_rules I.
    rewrite admin_condition_true, !and3_true, or3_true, not3_true,
      eq3_str_true, eq3_true.
    intros [[_ [Hno | (r & Hr & Hs)]] | Hadm].
    - by left.
    - right; left. by exists r.
    - right; right. exact Hadm. }
  split; [done|].
  intros [r Hr] Hch Hna. apply not_true_is_false. intros Hal.
  destruct (Himp Hal) as [Hno | [? | ?]]; [|done..].
  apply has_field_false in Hno as (d & -> & Hd). simpl in Hr. congruence.
Qed.

Lemma users_self_update_witness :
  let db : gmap string doc :=
    {[ "ada" := {[ "role" := VStr "user"; "displayName" := VStr "Ada" ]} ]} in
  let proposed : option doc :=
    Some {[ "role" := VStr "admin"; "displayName" := VStr "Ada" ]} in
  is_Some (data_field proposed "role")
  ∧ ¬ (∃ r, data_field proposed "role" = Some r
            ∧ stored_role db "ada" = Some r)
  ∧ stored_role db "ada" ≠ Some (VStr "admin")
  ∧ users_allowed db (Some "ada") OpUpdate "ada" proposed = false.
Proof.
  intros db proposed.
  assert (H1 : is_Some (data_field proposed "role")) by (vm_compute; eauto).
  assert (H2 : ¬ (∃ r, data_field proposed "role" = Some r
                       ∧ stored_role db "ada" = Some r)).
  { intros (r & Hp & Hs). vm_compute in Hp, Hs. congruence. }
  assert (H3 : stored_role db "ada" ≠ Some (VStr "admin"))
    by (vm_compute; discriminate).
  split; [exact H1|]. split; [exact H2|]. split; [exact H3|].
  exact (proj2 (users_self_update db "ada" proposed) H1 H2 H3).
Defined.

(** An [update] that leaves a profile with a role other than the one it
    had is granted to admins only. *)
Lemma users_update_role_change (db : gmap string doc) (who : option string)
    (userId : string) (proposed : doc) (r : value) :
  users_allowed db who OpUpdate userId (Some proposed) = true →
  proposed !! "role" = Some r →
  stored_role db userId ≠ Some r →
  ∃ caller, who = Some caller ∧ stored_role db caller = Some (VStr "admin").
Proof.
  unfold users_allowed, users_request. unfold_rules I.
  rewrite admin_condition_true, !and3_true, or3_true, not3_true,
    eq3_str_true, eq3_true, has_field_false.
  intros [[_ [(d & [= <-] & Hno) | (r' & Hr & Hs)]] | Hadm] Hp Hch.
  - congruence.
  - cbn in Hr. cbn [resource] in Hs. unfold stored_role in Hch. congruence.
  - unfold caller_role, get_user in Hadm. cbn [auth users] in Hadm.
    destruct who as [caller|]; [|done]. by exists caller.
Qed.

(** The [create] statement looks at the document id only: a signed-in
    requester may create the profile under their own uid with any fields. *)
Lemma users_create_own (db : gmap string doc) (uid : string)
    (proposed : option doc) :
  users_allowed db (Some uid) OpCreate uid proposed = true.
Proof.
  unfold users_allowed, users_request. unfold_rules I.
  rewrite and3_true, not_null_true, eq3_str_true. by split; [eexists|].
Qed.

(** C1: the rules let a requester without any stored profile, hence without
    the admin role, create their own profile document with the role admin. *)
Theorem users_create_sets_role :
  let db : gmap string doc := ∅ in
  let proposed : doc := {[ "role" := VStr "admin" ]} in
  stored_role db "u1" = None
  ∧ users_allowed db (Some "u1") OpCreate "u1" (Some proposed) = true
  ∧ data_field (Some proposed) "role" = Some (VStr "admin").
Proof. vm_compute. done. Qed.

(** ** Saved articles *)

(** The first disjunct of the [savedArticles] rule, on plain strings. *)
Lemma id_prefix_spec (uid id : string) :
  (String.length uid < String.length id)%nat
  ∧ substring 0 (String.length uid) id = uid
  ∧ String.get (String.length uid) id = Some "_"%char
  ↔ String.prefix (uid +:+ "_") id = true.
Proof.
  revert id. induction uid as [|a u IH]; intros [|c id'];
    try change ("" +:+ "_") with "_";
    try change (String a u +:+ "_") with (String a (u +:+ "_"));
    cbn [String.length substring String.get String.prefix].
  - split; [intros (? & _); lia | intros [=]].
  - destruct (ascii_dec "_" c) as [<-|Hne].
    + split; [intros _; by destruct id'|]. intros _. repeat split; lia.
    + split; [intros (_ & _ & [= ->]); done | intros [=]].
  - split; [intros (? & _); lia | intros [=]].
  - destruct (ascii_dec a c) as [<-|Hne].
    + rewrite <- IH. split.
      * intros (? & [= ?] & ?). repeat split; [lia|done..].
      * intros (? & -> & ?). repeat split; [lia|done..].
    + split; [intros (_ & [= ? _] & _); done | intros [=]].
Qed.

Lemma id_prefix_rule (id : string) (uid : string) :
  (gt3 (size (str id)) (size (str uid)) &&
   slice (str id) (int 0) (size (str uid)) =?= str uid &&
   index (str id) (size (str uid)) =?= str "_") = Some true
  ↔ String.prefix (uid +:+ "_") id = true.
Proof.
  rewrite <- id_prefix_spec, !and3_true, !eq3_str_true.
  unfold gt3, size, slice, index, str, int. cbn [mbind option_bind].
  rewrite Z.sub_0_r, !Nat2Z.id. change (Z.to_nat 0) with 0%nat.
  change (0 <=? 0)%Z with true. cbn [andb].
  assert (H0 : (0 <=? Z.of_nat (String.length uid))%Z = true)
    by (apply Z.leb_le; lia).
  rewrite H0.
  destruct (Z.leb_spec (Z.of_nat (String.length uid))
              (Z.of_nat (String.length id))) as [Hle|Hgt].
  - destruct (String.get (String.length uid) id) as [c|]; cbn.
    + split.
      * intros [[[= Hlt%Z.ltb_lt] [= Hs]] [= ->]]. repeat split; [lia|done].
      * intros (Hlt & Hs & [= ->]). rewrite Hs.
        repeat split. f_equal. apply Z.ltb_lt. lia.
    + split; [intros [_ [=]] | intros (_ & _ & [=])].
  - split; [intros [[_ [=]] _] | intros (? & _); lia].
Qed.

(** C6, as amended: for a signed-in requester who is not an admin, a
    single-document read, a create, an update or a delete of a saved
    article is allowed exactly when the document id starts with the
    requester's uid followed by an underscore, or the stored document's
    [userId] is the requester's uid, or the proposed document's [userId]
    is.  The document "U1_A1" is open to uid U1 whatever its fields are.
    When it has no [userId] field, a uid U2 that is not an admin is allowed
    on it exactly when the proposed document's [userId] is U2: the third
    case of the predicate is the only one left to U2, so U2 can neither
    read nor delete the document, nor write it with a document that does
    not name U2.  (Queries are the business of the [list] statement, which
    asks for a signed-in requester only.) *)
Theorem savedArticles_ownership :
  (∀ (id uid : string) (rq : request),
     auth rq = Some uid → op rq ≠ OpList →
     caller_role rq ≠ Some (VStr "admin") →
     (allowed (savedArticles id) rq = true ↔
        String.prefix (uid +:+ "_") id = true
        ∨ data_field (resource rq) "userId" = Some (VStr uid)
        ∨ data_field (request_resource rq) "userId" = Some (VStr uid)))
  ∧ (∀ o stored proposed db,
       allowed (savedArticles "U1_A1")
         (Request (Some "U1") o stored proposed db) = true)
  ∧ (∀ o stored proposed db,
       o ≠ OpList →
       data_field stored "userId" = None →
       stored_role db "U2" ≠ Some (VStr "admin") →
       (allowed (savedArticles "U1_A1")
          (Request (Some "U2") o stored proposed db) = true
        ↔ data_field proposed "userId" = Some (VStr "U2"))).
Proof.
  assert (Hgen : ∀ (id uid : string) (rq : request),
     auth rq = Some uid → op rq ≠ OpList →
     caller_role rq ≠ Some (VStr "admin") →
     (allowed (savedArticles id) rq = true ↔
        String.prefix (uid +:+ "_") id = true
        ∨ data_field (resource rq) "userId" = Some (VStr uid)
        ∨ data_field (request_resource rq) "userId" = Some (VStr uid))).
  { intros id uid rq Hauth Hop Hna.
    destruct (op rq) eqn:Ho; try done; unfold_rules Ho;
      rewrite admin_condition_true;
      unfold auth_uid; rewrite Hauth; cbn [fmap option_fmap option_map];
      change (Some (VStr uid)) with (str uid);
      rewrite and3_true, !or3_true, id_prefix_rule, !owner_field_true,
        not_null_true;
      (split; [intros [[_ [[?|?]|?]] | ?]; tauto
              | intros H; left; split; [eauto | tauto]]). }
  split; [exact Hgen|]. split.
  - intros o stored proposed db. unfold allowed, grants.
    cbn [savedArticles existsb keywords condition].
    apply orb_true_iff. left. apply andb_true_iff. split.
    + by destruct o.
    + apply bool_decide_eq_true. cbn [auth].
      rewrite and3_true, !or3_true. split; [done|]. left; left.
      unfold auth_uid. cbn [auth fmap option_fmap option_map].
      change (Some (VStr "U1")) with (str "U1").
      by rewrite id_prefix_rule.
  - intros o stored proposed db Ho Hs Hna.
    rewrite (Hgen "U1_A1" "U2"); [|done..].
    cbn [resource request_resource]. rewrite Hs.
    split; [intros [[=]|[[=]|?]]; done | intros ?; by do 2 right].
Qed.

Lemma savedArticles_ownership_witness :
  let db : gmap string doc := {[ "U2" := {[ "role" := VStr "user" ]} ]} in
  let stored : option doc := Some {[ "articleId" := VStr "A1" ]} in
  OpDelete ≠ OpList
  ∧ data_field stored "userId" = None
  ∧ stored_role db "U2" ≠ Some (VStr "admin")
  ∧ allowed (savedArticles "U1_A1")
      (Request (Some "U2") OpDelete stored None db) = false.
Proof.
  intros db stored.
  assert (H1 : OpDelete ≠ OpList) by discriminate.
  assert (H3 : stored_role db "U2" ≠ Some (VStr "admin"))
    by (vm_compute; discriminate).
  split; [exact H1|]. split; [reflexivity|]. split; [exact H3|].
  apply not_true_is_false. intros Hallowed.
  apply (proj2 (proj2 savedArticles_ownership) OpDelete stored None db
           H1 eq_refl H3) in Hallowed.
  discriminate Hallowed.
Defined.

(** C6, the claim as first worded: it says that the document "U1_A1"
    without a [userId] field is not writable by a uid U2 that is not an
    admin.  Here the users collection stores the role user for U2, the
    stored document has no [userId], and U2 updates it with a document
    whose [userId] is U2: the update is allowed, through the third case of
    the very predicate the claim lists. *)
Lemma savedArticles_foreign_update :
  let db : gmap string doc := {[ "U2" := {[ "role" := VStr "user" ]} ]} in
  let stored : option doc := Some {[ "articleId" := VStr "A1" ]} in
  let proposed : option doc :=
    Some {[ "articleId" := VStr "A1"; "userId" := VStr "U2" ]} in
  stored_role db "U2" = Some (VStr "user")
  ∧ data_field stored "userId" = None
  ∧ allowed (savedArticles "U1_A1")
      (Request (Some "U2") OpUpdate stored proposed db) = true.
Proof. vm_compute. done. Qed.

(** A query on saved articles is open to every signed-in requester. *)
Lemma savedArticles_list (id uid : string) (stored proposed : option doc)
    (db : gmap string doc) :
  allowed (savedArticles id) (Request (Some uid) OpList stored proposed db)
    = true.
Proof.
  unfold allowed, grants. cbn [savedArticles existsb keywords condition].
  apply orb_true_iff. right. apply orb_true_iff. left. reflexivity.
Qed.

End RulesFacts.

(** * Properties of the session permission cache *)

Module AuthContextFacts.
Import AuthContext.

(** ** Permissions of a role *)

(** C2: [generatePermissions] maps admin to the set with all seven flags
    true, infowriter to the set with [canCreateArticles] alone, user to
    the set with no flag, and every role to the dashboard route
    "/dashboard".  Being a function of the role string, it has a value for
    every role and the role alone fixes it. *)
Theorem generatePermissions_table :
  generatePermissions "admin" =
    {| canCreateArticles := true; canManageUsers := true;
       canAccessAdmin := true; canEditAnyArticle := true;
       canDeleteArticles := true; canApproveWriters := true;
       canViewAnalytics := true; dashboardRoute := "/dashboard" |}
  ∧ generatePermissions "infowriter" =
    {| canCreateArticles := true; canManageUsers := false;
       canAccessAdmin := false; canEditAnyArticle := false;
       canDeleteArticles := false; canApproveWriters := false;
       canViewAnalytics := false; dashboardRoute := "/dashboard" |}
  ∧ generatePermissions "user" =
    {| canCreateArticles := false; canManageUsers := false;
       canAccessAdmin := false; canEditAnyArticle := false;
       canDeleteArticles := false; canApproveWriters := false;
       canViewAnalytics := false; dashboardRoute := "/dashboard" |}
  ∧ ∀ role, dashboardRoute (generatePermissions role) = "/dashboard".
Proof.
  repeat split. intros r. unfold generatePermissions.
  by repeat case_match.
Qed.

(** Any other role string falls into the [default] case. *)
Lemma generatePermissions_default (r : string) :
  r ≠ "admin" → r ≠ "infowriter" →
  generatePermissions r = generatePermissions "user".
Proof.
  intros Ha Hw. unfold generatePermissions.
  apply String.eqb_neq in Ha, Hw. by rewrite Ha, Hw.
Qed.

(** C7: in a session that holds a profile and the permissions derived from
    its role, [isAdmin] is the [canAccessAdmin] flag and holds exactly for
    the role admin, [isInfoWriter] is [canCreateArticles] without
    [canAccessAdmin] and holds exactly for the role infowriter, and
    [isUser] compares the role string with "user". *)
Theorem role_flags (s : state) (p : UserProfile) :
  userProfile s = Some p →
  permissions s = Some (generatePermissions (role p)) →
  (isAdmin s = true ↔ role p = "admin")
  ∧ (isInfoWriter s = true ↔ role p = "infowriter")
  ∧ (isUser s = true ↔ role p = "user")
  ∧ isAdmin s = canAccessAdmin (generatePermissions (role p))
  ∧ isInfoWriter s = canCreateArticles (generatePermissions (role p))
                     && negb (canAccessAdmin (generatePermissions (role p)))
  ∧ isUser s = String.eqb (role p) "user".
Proof.
  intros Hp Hperm. unfold isAdmin, isInfoWriter, isUser.
  rewrite Hp, Hperm, !orb_false_r. unfold generatePermissions.
  rewrite <- !String.eqb_eq.
  destruct (String.eqb (role p) "admin") eqn:Ha.
  - apply String.eqb_eq in Ha. rewrite Ha. by cbn.
  - destruct (String.eqb (role p) "infowriter") eqn:Hw; cbn; [done|].
    repeat split; done.
Qed.

Lemma role_flags_witness :
  let p := {| uid := "w1"; email := "w@example.org"; displayName := "W";
              role := "infowriter"; emailVerified := true;
              profilePicture := ""; createdAt := None; updatedAt := None;
              requestedWriterAccess := None |} in
  let s := {| user := None; userProfile := Some p;
              permissions := Some (generatePermissions "infowriter");
              loading := false; profileLoading := false;
              localStorage := ∅ |} in
  userProfile s = Some p
  ∧ permissions s = Some (generatePermissions (role p))
  ∧ (isInfoWriter s = true ↔ role p = "infowriter").
Proof.
  intros p s. split; [reflexivity|]. split; [reflexivity|].
  exact (proj1 (proj2 (role_flags s p eq_refl eq_refl))).
Defined.

(** ** The expiring cache *)

Lemma clearCache_eq (s : state) :
  clearCache s =
  (Returned (),
   {| user := user s; userProfile := userProfile s;
      permissions := permissions s; loading := loading s;
      profileLoading := profileLoading s;
      localStorage :=
        delete LAST_UPDATED (delete PERMISSIONS
          (delete USER_PROFILE (localStorage s))) |}).
Proof. reflexivity. Qed.

Lemma clearCache_cleared (s : state) : cache_cleared (run clearCache s).
Proof.
  intros key Hkey. unfold run. rewrite clearCache_eq. cbn [snd localStorage].
  unfold CACHE_KEYS in Hkey.
  repeat (apply elem_of_cons in Hkey as [-> | Hkey]);
    [ | | | by apply elem_of_nil in Hkey ].
  - rewrite !lookup_delete_ne by done. apply lookup_delete_eq.
  - rewrite lookup_delete_ne by done. apply lookup_delete_eq.
  - apply lookup_delete_eq.
Qed.

Lemma deleted_keys (ls : gmap string string) (key : string) :
  key ∈ CACHE_KEYS →
  delete LAST_UPDATED (delete PERMISSIONS (delete USER_PROFILE ls)) !! key
    = None.
Proof. intros Hkey. apply (clearCache_cleared (initial ls) key Hkey). Qed.

Section Expiry.
Variable parseInt : string → option Z.
Context {T : Type} `{!JSON T}.

(** A read that finds the entry and a timestamp that parses. *)
Lemma getCachedData_stored (s : state) (key cached lastUpdated : string)
    (now t : Z) :
  localStorage s !! key = Some cached → cached ≠ "" →
  localStorage s !! LAST_UPDATED = Some lastUpdated → lastUpdated ≠ "" →
  parseInt lastUpdated = Some t →
  getCachedData parseInt key now s =
    if (CACHE_EXPIRY <? now - t)%Z then (Returned None, run clearCache s)
    else (match parse cached with
          | Returned v => Returned (Some v)
          | Thrown _ => Returned None
          end, s).
Proof.
  intros Hc Hcne%String.eqb_neq Hl Hlne%String.eqb_neq Ht.
  unfold getCachedData, try_catch, mbind, M_bind, getItem, expired, truthy.
  cbv beta. rewrite Hc. cbv beta iota. rewrite Hcne. cbn [negb].
  rewrite Hl. cbv beta iota. rewrite Hlne. cbn [negb default].
  unfold id. rewrite Ht.
  destruct (CACHE_EXPIRY <? now - t)%Z.
  - by rewrite clearCache_eq.
  - unfold await. by destruct (parse cached).
Qed.

(** C8: reading an entry whose stored timestamp lies more than five
    minutes (300000 ms) before the time of the read returns null and
    removes the cache keys from the store; reading one that is at most
    five minutes old returns the stored text, parsed, and leaves the
    store alone. *)
Theorem getCachedData_expiry (s : state) (key cached lastUpdated : string)
    (now t : Z) :
  localStorage s !! key = Some cached → cached ≠ "" →
  localStorage s !! LAST_UPDATED = Some lastUpdated → lastUpdated ≠ "" →
  parseInt lastUpdated = Some t →
  (300000 < now - t →
     getCachedData parseInt key now s = (Returned None, run clearCache s)
     ∧ cache_cleared (run clearCache s))
  ∧ (now - t ≤ 300000 →
     getCachedData parseInt key now s =
       (match parse cached with
        | Returned v => Returned (Some v)
        | Thrown _ => Returned None
        end, s)).
Proof.
  intros Hc Hcne Hl Hlne Ht.
  pose proof (getCachedData_stored s key cached lastUpdated now t
                Hc Hcne Hl Hlne Ht) as Hget.
  change CACHE_EXPIRY with 300000 in Hget. split.
  - intros Hold. split; [|apply clearCache_cleared].
    rewrite Hget. by rewrite (proj2 (Z.ltb_lt _ _) Hold).
  - intros Hfresh. rewrite Hget.
    by rewrite (proj2 (Z.ltb_ge _ _) Hfresh).
Qed.
End Expiry.

Lemma getCachedData_expiry_witness :
  let s := initial {[ PERMISSIONS := "{}"; LAST_UPDATED := "1000" ]} in
  localStorage s !! PERMISSIONS = Some "{}" ∧ "{}" ≠ ""
  ∧ localStorage s !! LAST_UPDATED = Some "1000" ∧ "1000" ≠ ""
  ∧ Browser.parseInt "1000" = Some 1000
  ∧ 300000 < 301001 - 1000
  ∧ getCachedData (T:=string) Browser.parseInt PERMISSIONS 301001 s
      = (Returned None, run clearCache s).
Proof.
  intros s.
  assert (H2 : "{}" ≠ "") by discriminate.
  assert (H4 : "1000" ≠ "") by discriminate.
  assert (H6 : 300000 < 301001 - 1000) by lia.
  split; [reflexivity|]. split; [exact H2|]. split; [reflexivity|].
  split; [exact H4|]. split; [reflexivity|]. split; [exact H6|].
  exact (proj1 (proj1 (getCachedData_expiry Browser.parseInt s PERMISSIONS
                         "{}" "1000" 301001 1000
                         eq_refl H2 eq_refl H4 eq_refl) H6)).
Defined.

(** ** Loading the profile *)

Lemma session_update_coherent s s' :
  coherent s → session_update s s' → coherent s'.
Proof.
  unfold coherent. intros Hs [[-> ->] | [[? ?] | [-> ->]]]; [done|done|].
  split; intros [? [=]].
Qed.

Lemma session_update_frame s s0 s' :
  userProfile s0 = userProfile s → permissions s0 = permissions s →
  session_update s0 s' → session_update s s'.
Proof. unfold session_update. intros <- <-. done. Qed.

Section Session.
Variable parseInt : string → option Z.
Variable toString : Z → string.
Context {profile_json : JSON UserProfile}
        {permissions_json : JSON CachedPermissions}.

(** What was written is read back while it is fresh. *)
Lemma setCachedData_getCachedData {T} `{!JSON T} (key : string) (data : T)
    (t now : Z) (s : state) :
  key ≠ LAST_UPDATED →
  stringify data ≠ "" → parse (stringify data) = Returned data →
  toString t ≠ "" → parseInt (toString t) = Some t →
  now - t ≤ 300000 →
  fst (getCachedData parseInt key now
         (run (setCachedData toString key data t) s))
    = Returned (Some data).
Proof.
  intros Hkey Hne Hparse Htne Ht Hfresh.
  set (s1 := run (setCachedData toString key data t) s).
  assert (Hk : localStorage s1 !! key = Some (stringify data)).
  { subst s1. unfold run, setCachedData, try_catch, mbind, M_bind, setItem,
      modifyStorage. cbn.
    rewrite lookup_insert_ne by done. apply lookup_insert_eq. }
  assert (Hl : localStorage s1 !! LAST_UPDATED = Some (toString t)).
  { subst s1. unfold run, setCachedData, try_catch, mbind, M_bind, setItem,
      modifyStorage. cbn.
    apply lookup_insert_eq. }
  rewrite (getCachedData_stored parseInt s1 key _ _ now t Hk Hne Hl Htne Ht).
  change CACHE_EXPIRY with 300000.
  rewrite (proj2 (Z.ltb_ge _ _) Hfresh), Hparse. reflexivity.
Qed.

Lemma publishProfile_result u data now1 now2 s :
  (∃ error, publishProfile toString u data now1 now2 s = (Thrown error, s))
  ∨ (∃ s' p, publishProfile toString u data now1 now2 s = (Returned (), s')
       ∧ userProfile s' = Some p
       ∧ permissions s' = Some (generatePermissions (role p))
       ∧ profileLoading s' = profileLoading s
       ∧ loading s' = loading s ∧ user s' = user s).
Proof.
  unfold publishProfile, buildProfile.
  destruct data as [dn r pp [|c|] [|m|] w]; cbn; eauto 10.
Qed.

(** [loadUserProfile] returns, with the loading flag down, and leaves
    either no profile, no permissions and no cache, or a profile with
    the permissions of its role. *)
Lemma loadUserProfile_result e u s :
  ∃ s', loadUserProfile toString e u s = (Returned (), s')
    ∧ profileLoading s' = false
    ∧ loading s' = loading s ∧ user s' = user s
    ∧ ((userProfile s' = None ∧ permissions s' = None ∧ cache_cleared s')
       ∨ (∃ p, userProfile s' = Some p
            ∧ permissions s' = Some (generatePermissions (role p)))).
Proof.
  assert (Hdrop : ∀ s0, user s0 = user s → loading s0 = loading s →
    ∃ s', (let (r, s1) :=
             (setUserProfile None ;; setPermissions None ;; clearCache) s0 in
           let (o, s2) := setProfileLoading false s1 in
           match o with
           | Returned _ => (r, s2)
           | Thrown err => (Thrown err, s2)
           end) = (Returned (), s')
      ∧ profileLoading s' = false
      ∧ loading s' = loading s ∧ user s' = user s
      ∧ ((userProfile s' = None ∧ permissions s' = None ∧ cache_cleared s')
         ∨ (∃ p, userProfile s' = Some p
              ∧ permissions s' = Some (generatePermissions (role p))))).
  { intros s0 Hu Hl. eexists. split; [reflexivity|]. cbn.
    repeat split; [done..|]. left. repeat split.
    intros key Hkey. by apply deleted_keys. }
  unfold loadUserProfile, try_finally, try_catch.
  unfold mbind at 1 2 3, M_bind at 1 2 3, await.
  cbn [setProfileLoading].
  destruct (reload e u) as [refreshed|err]; [|by apply Hdrop].
  destruct (getDoc e _) as [[data|]|err]; [| by apply Hdrop..].
  match goal with
  | |- context [publishProfile _ _ _ _ _ ?s0] =>
      destruct (publishProfile_result refreshed data (now_profile e)
                  (now_permissions e) s0)
        as [[err ->] | (s' & p & -> & Hp & Hperm & _ & Hl & Hu)]
  end.
  - by apply Hdrop.
  - eexists. split; [reflexivity|]. cbn. repeat split; [done..|].
    right. by exists p.
Qed.

Lemma loadUserProfile_update e u s :
  session_update s (run (loadUserProfile toString e u) s).
Proof.
  destruct (loadUserProfile_result e u s)
    as (s' & Heq & _ & _ & _ & [(Hp & Hperm & _) | (p & Hp & Hperm)]);
    unfold run; rewrite Heq; cbn [snd]; unfold session_update.
  - right; right. done.
  - right; left. rewrite Hp, Hperm. eauto.
Qed.

(** A cache read touches the store only. *)
Lemma getCachedData_frame {T} `{!JSON T} (key : string) (now : Z) s :
  ∃ r s', getCachedData parseInt key now s = (Returned r, s')
    ∧ userProfile s' = userProfile s ∧ permissions s' = permissions s.
Proof.
  unfold getCachedData, try_catch, mbind, M_bind, getItem. cbv beta.
  destruct (negb (truthy (localStorage s !! key))); [cbn; eauto|].
  destruct (negb (truthy (localStorage s !! LAST_UPDATED))); [cbn; eauto|].
  destruct (expired parseInt now _).
  - rewrite clearCache_eq. cbn. eauto.
  - unfold await. destruct (parse _); cbn; eauto.
Qed.

Lemma initFromCache_update now1 now2 s :
  session_update s (run (initFromCache parseInt now1 now2) s).
Proof.
  unfold run, initFromCache, mbind at 1, M_bind at 1.
  destruct (getCachedData_frame (T:=UserProfile) USER_PROFILE now1 s)
    as (r1 & s1 & -> & Hp1 & Hperm1).
  unfold mbind at 1, M_bind at 1.
  destruct (getCachedData_frame (T:=CachedPermissions) PERMISSIONS now2 s1)
    as (r2 & s2 & -> & Hp2 & Hperm2).
  destruct r1 as [p|], r2 as [c|]; cbn;
    unfold session_update; cbn; eauto; left; split; congruence.
Qed.

Lemma onProfileSnapshot_update u snapshot now1 now2 s :
  session_update s (run (onProfileSnapshot toString u snapshot now1 now2) s).
Proof.
  unfold run, onProfileSnapshot. destruct snapshot as [data|].
  - destruct (publishProfile_result u data now1 now2 s)
      as [[err ->] | (s' & p & -> & Hp & Hperm & _)]; cbn [snd].
    + by left.
    + right; left. rewrite Hp, Hperm. eauto.
  - by left.
Qed.

Lemma refreshProfile_update currentUser e s :
  session_update s (run (refreshProfile toString currentUser e) s).
Proof.
  unfold refreshProfile. destruct currentUser as [u|]; [|by left].
  unfold run, mbind, M_bind. rewrite clearCache_eq.
  eapply session_update_frame; [| |apply loadUserProfile_update]; done.
Qed.

Lemma onAuthStateChanged_update e firebaseUser s :
  session_update s (run (onAuthStateChanged toString e firebaseUser) s).
Proof.
  unfold run, onAuthStateChanged. destruct firebaseUser as [u|].
  - unfold mbind at 1 2 3, M_bind at 1 2 3. cbn [setLoading setUser].
    match goal with
    | |- context [loadUserProfile _ _ _ ?s0] =>
        destruct (loadUserProfile_result e u s0)
          as (s' & -> & _ & _ & _ & [(Hp & Hperm & _) | (p & Hp & Hperm)])
    end; cbn; unfold session_update; cbn.
    + right; right. done.
    + right; left. rewrite Hp, Hperm. eauto.
  - right; right. done.
Qed.

Lemma step_update s s' :
  step parseInt toString s s' → session_update s s'.
Proof.
  destruct 1.
  - apply initFromCache_update.
  - apply onAuthStateChanged_update.
  - apply onProfileSnapshot_update.
  - apply refreshProfile_update.
Qed.

Lemma reachable_coherent ls s :
  reachable parseInt toString ls s → coherent s.
Proof.
  unfold reachable. intros Hr.
  assert (H0 : coherent (initial ls)).
  { unfold coherent, initial; cbn. split; intros [? [=]]. }
  revert H0. induction Hr as [|s0 s1 s2 Hstep _ IH]; [done|].
  intros H0. apply IH.
  eapply session_update_coherent; [exact H0|by apply step_update].
Qed.

(** C9: when the profile cannot be loaded, because a fetch throws or the
    profile document does not exist, [loadUserProfile] leaves no profile,
    no permissions and none of the cache keys in the store; it returns
    to its caller without an exception in every case; and no state the
    provider reaches holds permissions without a profile. *)
Theorem loadUserProfile_failure (e : env) (firebaseUser : User) (s : state) :
  (load_fails e firebaseUser →
     ∃ s', loadUserProfile toString e firebaseUser s = (Returned (), s')
       ∧ userProfile s' = None ∧ permissions s' = None
       ∧ cache_cleared s')
  ∧ fst (loadUserProfile toString e firebaseUser s) = Returned ()
  ∧ (∀ ls s', reachable parseInt toString ls s' →
       ¬ (is_Some (permissions s') ∧ userProfile s' = None)).
Proof.
  split; [|split].
  - intros Hfail.
    assert (Hgone : ∀ s0,
      ∃ s', (let (r, s1) :=
               (setUserProfile None ;; setPermissions None ;; clearCache) s0 in
             let (o, s2) := setProfileLoading false s1 in
             match o with
             | Returned _ => (r, s2)
             | Thrown err => (Thrown err, s2)
             end) = (Returned (), s')
        ∧ userProfile s' = None ∧ permissions s' = None ∧ cache_cleared s').
    { intros s0. eexists. split; [reflexivity|]. cbn. repeat split.
      intros key Hkey. by apply deleted_keys. }
    unfold loadUserProfile, try_finally, try_catch.
    unfold mbind at 1 2 3, M_bind at 1 2 3, await.
    cbn [setProfileLoading].
    destruct Hfail as [[err ->] | (refreshed & -> & [[err ->] | ->])];
      apply Hgone.
  - by destruct (loadUserProfile_result e firebaseUser s) as (s' & -> & _).
  - intros ls s' Hr [Hperm Hnone]. apply reachable_coherent in Hr.
    apply Hr in Hperm. rewrite Hnone in Hperm. by destruct Hperm.
Qed.
End Session.

Lemma loadUserProfile_failure_witness :
  let account := {| user_uid := "u1"; user_email := Some "u1@example.org";
                    user_displayName := None; user_emailVerified := true |} in
  let e := {| reload := Returned; getDoc := λ _, Returned None;
              now_profile := 7; now_permissions := 8 |} in
  let p := {| uid := "u1"; email := "u1@example.org"; displayName := "u1";
              role := "admin"; emailVerified := true; profilePicture := "";
              createdAt := None; updatedAt := None;
              requestedWriterAccess := None |} in
  let s := {| user := Some account; userProfile := Some p;
              permissions := Some (generatePermissions "admin");
              loading := false; profileLoading := false;
              localStorage := {[ USER_PROFILE := "{}"; PERMISSIONS := "{}";
                                 LAST_UPDATED := "1000" ]} |} in
  load_fails e account
  ∧ ∃ s', loadUserProfile Browser.toString
            (profile_json := Browser.write_only UserProfile)
            (permissions_json := Browser.write_only CachedPermissions) e account s
          = (Returned (), s')
      ∧ userProfile s' = None ∧ permissions s' = None ∧ cache_cleared s'.
Proof.
  intros account e p s.
  assert (Hfail : load_fails e account).
{ right. exists account. split; [reflexivity|]. right. reflexivity. }
  split; [exact Hfail|].
  exact (proj1 (loadUserProfile_failure Browser.parseInt Browser.toString
                  (profile_json := Browser.write_only UserProfile)
                  (permissions_json := Browser.write_only CachedPermissions)
                  e account s) Hfail).
Defined.

End AuthContextFacts.

(** * Further properties *)

(** ** Prefixes of strings *)

Lemma string_prefix_append (a b : string) : String.prefix a (a +:+ b) = true.
Proof.
  induction a as [|c a IH]; [by destruct b|].
  change (String c a +:+ b) with (String c (a +:+ b)).
  cbn [String.prefix]. by destruct (ascii_dec c c).
Qed.

Lemma string_prefix_refl (a : string) : String.prefix a a = true.
Proof.
  induction a as [|c a IH]; [done|].
  cbn [String.prefix]. by destruct (ascii_dec c c).
Qed.

Lemma string_prefix_trans (a b c : string) :
  String.prefix a b = true → String.prefix b c = true →
  String.prefix a c = true.
Proof.
  revert b c. induction a as [|x a IH]; intros [|y b] [|z c]; cbn; try done.
  destruct (ascii_dec x y) as [<-|]; [|done].
  destruct (ascii_dec x z) as [<-|]; [|done].
  destruct (ascii_dec x x); [|done]. apply IH.
Qed.

(** ** The rules, collection by collection *)

Module RulesCoverage.
Import Rules RulesFacts.
Local Open Scope rules_scope.


Ltac open_rules Hop :=
  unfold allowed, grants;
  cbn [articles writerRequests users_rules savedArticles notifications
       userActivity existsb keywords condition];
  rewrite ?Hop; cbn [covers orb andb op];
  rewrite ?orb_false_r, ?orb_true_iff, ?bool_decide_eq_true.

(** [request.auth != null && request.auth.uid == r.data.k] *)
Lemma self_field_true rq (r : option doc) (k : string) :
  (not_null (auth rq) && auth_uid rq =?= data_field r k) = Some true
  ↔ ∃ uid, auth rq = Some uid ∧ data_field r k = Some (VStr uid).
Proof.
  rewrite and3_true, not_null_true, eq3_true. unfold auth_uid.
  destruct (auth rq) as [uid|]; cbn.
  - split.
    + intros (_ & v & [= <-] & Hk). eauto.
    + intros (? & [= <-] & Hk). eauto.
  - split; [intros ([? [=]] & _) | intros (? & [=] & _)].
Qed.

(** The owner-or-admin clause on the field [k] of the stored document. *)
Lemma owner_or_admin_true rq (k : string) :
  (not_null (auth rq) &&
   (auth_uid rq =?= data_field (resource rq) k ||
    caller_role rq =?= str "admin")) = Some true
  ↔ ∃ uid, auth rq = Some uid
           ∧ (data_field (resource rq) k = Some (VStr uid)
              ∨ caller_role rq = Some (VStr "admin")).
Proof.
  rewrite and3_true, or3_true, not_null_true, eq3_true, eq3_str_true.
  unfold auth_uid. destruct (auth rq) as [uid|]; cbn.
  - split.
    + intros (_ & [(v & [= <-] & Hk) | Hadm]); eauto.
    + intros (? & [= <-] & [Hk | Hadm]); eauto 6.
  - split; [intros ([? [=]] & _) | intros (? & [=] & _)].
Qed.

(** Without a signed-in requester an authenticated clause is false. *)
Lemma anonymous_clause rq (c : option bool) :
  auth rq = None → (not_null (auth rq) && c) ≠ Some true.
Proof. intros ->. by destruct c as [[]|]. Qed.

Lemma admin_only_true rq :
  (not_null (auth rq) && caller_role rq =?= str "admin") = Some true
  ↔ caller_role rq = Some (VStr "admin").
Proof.
  rewrite and3_true, not_null_true, eq3_str_true.
  split; [tauto|]. intros H. split; [|done].
  unfold caller_role, get_user in H. destruct (auth rq); [eauto | done].
Qed.

(** X1: an article can be updated or deleted exactly by a signed-in
    requester who is its author or whose stored role is admin. *)
Theorem article_modify_iff (rq : request)
    (Hop : op rq = OpUpdate ∨ op rq = OpDelete) :
  allowed articles rq = true
  ↔ ∃ uid, auth rq = Some uid
           ∧ (data_field (resource rq) "authorId" = Some (VStr uid)
              ∨ caller_role rq = Some (VStr "admin")).
Proof.
  destruct Hop as [Hop | Hop]; open_rules Hop; apply owner_or_admin_true.
Qed.

Lemma article_modify_iff_witness :
  let rq := Request (Some "bob") OpDelete
              (Some {[ "authorId" := VStr "bob"; "status" := VStr "draft" ]})
              None ∅ in
  (op rq = OpUpdate ∨ op rq = OpDelete)
  ∧ allowed articles rq = true.
Proof.
  intros rq.
  assert (Hop : op rq = OpUpdate ∨ op rq = OpDelete) by (right; reflexivity).
  split; [exact Hop|].
  apply (proj2 (article_modify_iff rq Hop)).
  exists "bob". split; [reflexivity|]. left. reflexivity.
Defined.

(** X2: a requester who is not signed in is allowed one thing in the whole
    rule set, reading a published article; every request on writer
    requests, user profiles, saved articles, notifications and user
    activity is denied, and so is every write on articles. *)
Theorem anonymous_access (rq : request) (Hanon : auth rq = None) :
  (allowed articles rq = true
   ↔ covers Read (op rq) = true
     ∧ data_field (resource rq) "status" = Some (VStr "published"))
  ∧ allowed writerRequests rq = false
  ∧ (∀ userId, allowed (users_rules userId) rq = false)
  ∧ (∀ savedArticleId, allowed (savedArticles savedArticleId) rq = false)
  ∧ allowed notifications rq = false
  ∧ allowed userActivity rq = false.
Proof.
  assert (Hno : ∀ c, bool_decide ((not_null (auth rq) && c) = Some true) = false).
  { intros c. apply bool_decide_eq_false. by apply anonymous_clause. }
  assert (Hno1 : bool_decide (not_null (auth rq) = Some true) = false).
  { rewrite Hanon. reflexivity. }
  assert (Hno2 : ∀ c d,
    bool_decide ((not_null (auth rq) && c && d) = Some true) = false).
  { intros c d. apply bool_decide_eq_false. rewrite and3_true.
    intros [H _]. by apply anonymous_clause in H. }
  split; [|split; [|split; [|split; [|split]]]].
  - unfold allowed, grants. cbn [articles existsb keywords condition].
    rewrite !Hno, Hno2, !andb_false_r, !orb_false_r.
    rewrite andb_true_iff, bool_decide_eq_true, eq3_str_true.
    tauto.
  - unfold allowed, grants. cbn [writerRequests existsb keywords condition].
    by rewrite !Hno, !andb_false_r.
  - intros userId. unfold allowed, grants.
    cbn [users_rules existsb keywords condition].
    by rewrite !Hno, !Hno2, Hno1, !andb_false_r.
  - intros id. unfold allowed, grants.
    cbn [savedArticles existsb keywords condition].
    by rewrite !Hno, !Hno2, Hno1, !andb_false_r.
  - unfold allowed, grants. cbn [notifications existsb keywords condition].
    by rewrite !Hno, !Hno2, !andb_false_r.
  - unfold allowed, grants. cbn [userActivity existsb keywords condition].
    by rewrite !Hno, Hno1, !andb_false_r.
Qed.

Lemma anonymous_access_witness :
  let rq := Request None OpUpdate
              (Some {[ "userId" := VStr "bob" ]})
              (Some {[ "userId" := VStr "bob"; "read" := VBool true ]}) ∅ in
  auth rq = None ∧ allowed notifications rq = false.
Proof.
  intros rq. split; [reflexivity|].
  exact (proj1 (proj2 (proj2 (proj2 (proj2 (anonymous_access rq eq_refl)))))).
Defined.

(** X3: a writer request can be read by its owner and by admins, created
    by a signed-in requester under their own [userId], and updated
    (approved or denied) by admins only, so not by its owner. *)
Theorem writerRequests_table (rq : request) :
  (covers Read (op rq) = true →
     (allowed writerRequests rq = true
      ↔ ∃ uid, auth rq = Some uid
               ∧ (data_field (resource rq) "userId" = Some (VStr uid)
                  ∨ caller_role rq = Some (VStr "admin"))))
  ∧ (op rq = OpCreate →
     (allowed writerRequests rq = true
      ↔ ∃ uid, auth rq = Some uid
               ∧ data_field (request_resource rq) "userId" = Some (VStr uid)))
  ∧ (op rq = OpUpdate →
     (allowed writerRequests rq = true
      ↔ caller_role rq = Some (VStr "admin"))).
Proof.
  split; [|split].
  - intros Hr. destruct (op rq) eqn:Hop; try discriminate Hr;
      open_rules Hop; apply owner_or_admin_true.
  - intros Hop. open_rules Hop. apply self_field_true.
  - intros Hop. open_rules Hop.
    rewrite and3_true, not_null_true, eq3_str_true.
    split; [tauto|]. intros H. split; [|done].
    unfold caller_role, get_user in H. destruct (auth rq); [eauto | done].
Qed.

Lemma writerRequests_table_witness :
  let rq := Request (Some "root") OpUpdate
              (Some {[ "userId" := VStr "bob"; "status" := VStr "pending" ]})
              (Some {[ "userId" := VStr "bob"; "status" := VStr "approved" ]})
              {[ "root" := {[ "role" := VStr "admin" ]} ]} in
  op rq = OpUpdate
  ∧ caller_role rq = Some (VStr "admin")
  ∧ allowed writerRequests rq = true.
Proof.
  intros rq. split; [reflexivity|]. split; [reflexivity|].
  exact (proj2 (proj2 (proj2 (writerRequests_table rq)) eq_refl) eq_refl).
Defined.

(** X4: a user profile can be read by every signed-in requester, created
    only under the requester's own uid, updated by somebody else than its
    subject only if that requester's stored role is admin, and deleted by
    nobody. *)
Theorem users_table (userId : string) (rq : request) :
  (covers Read (op rq) = true →
     (allowed (users_rules userId) rq = true ↔ is_Some (auth rq)))
  ∧ (op rq = OpCreate →
     (allowed (users_rules userId) rq = true ↔ auth rq = Some userId))
  ∧ (op rq = OpUpdate → auth rq ≠ Some userId →
     (allowed (users_rules userId) rq = true
      ↔ caller_role rq = Some (VStr "admin")))
  ∧ (op rq = OpDelete → allowed (users_rules userId) rq = false).
Proof.
  split; [|split; [|split]].
  - intros Hr. destruct (op rq) eqn:Hop; try discriminate Hr;
      open_rules Hop; apply not_null_true.
  - intros Hop. open_rules Hop.
    rewrite and3_true, not_null_true, eq3_str_true. unfold auth_uid.
    destruct (auth rq) as [uid|]; cbn.
    + split; [intros (_ & [= ->]); done | intros [= ->]; eauto].
    + split; [intros (_ & [=]) | intros [=]].
  - intros Hop Hother. open_rules Hop.
    rewrite admin_condition_true, !and3_true, eq3_str_true. unfold auth_uid.
    split; [|tauto]. intros [((_ & Hself) & _) | Hadm]; [|done].
    destruct (auth rq) as [uid|]; cbn in Hself; [|done].
    injection Hself as ->. done.
  - intros Hop. unfold allowed, grants.
    cbn [users_rules existsb keywords condition]. rewrite Hop. reflexivity.
Qed.

Lemma users_table_witness :
  let rq := Request (Some "bob") OpDelete
              (Some {[ "role" := VStr "user" ]}) None
              {[ "bob" := {[ "role" := VStr "admin" ]} ]} in
  op rq = OpDelete ∧ allowed (users_rules "bob") rq = false.
Proof.
  intros rq. split; [reflexivity|].
  exact (proj2 (proj2 (proj2 (users_table "bob" rq))) eq_refl).
Defined.

(** X5: a user's update of their own profile is allowed exactly when the
    proposed document has no role, or the role the stored document has,
    or the user is an admin; every other field is free. *)
Theorem users_self_update_iff (db : gmap string doc) (uid : string)
    (proposed : doc) :
  users_allowed db (Some uid) OpUpdate uid (Some proposed) = true
  ↔ proposed !! "role" = None
    ∨ proposed !! "role" = stored_role db uid
    ∨ stored_role db uid = Some (VStr "admin").
Proof.
  unfold users_allowed, users_request. open_rules I.
  rewrite admin_condition_true, !and3_true, or3_true, not3_true,
    eq3_str_true, eq3_true, has_field_false, not_null_true.
  cbn [auth resource request_resource]. unfold auth_uid. cbn.
  change (caller_role _) with (stored_role db uid).
  change (data_field (db !! uid) "role") with (stored_role db uid).
  split.
  - intros [[_ [(d & [= <-] & Hno) | (r & Hr & Hs)]] | Hadm]; [tauto| |tauto].
    right; left. congruence.
  - intros [Hno | [Hsame | Hadm]]; [| |tauto]; left; (split; [eauto|]).
    + left. eauto.
    + destruct (proposed !! "role") as [r|] eqn:Hr; [right; eauto | left; eauto].
Qed.

(** X6: a notification can be read by the user it is addressed to and by
    admins; it can be updated or deleted by the addressed user only, so
    an admin cannot touch another user's notification; it can be created
    by an admin for anybody and by any signed-in requester for
    themselves. *)
Theorem notifications_table (rq : request) :
  (covers Read (op rq) = true →
     (allowed notifications rq = true
      ↔ (∃ uid, auth rq = Some uid
                ∧ data_field (resource rq) "userId" = Some (VStr uid))
        ∨ caller_role rq = Some (VStr "admin")))
  ∧ (op rq = OpUpdate ∨ op rq = OpDelete →
     (allowed notifications rq = true
      ↔ ∃ uid, auth rq = Some uid
               ∧ data_field (resource rq) "userId" = Some (VStr uid)))
  ∧ (op rq = OpCreate →
     (allowed notifications rq = true
      ↔ caller_role rq = Some (VStr "admin")
        ∨ ∃ uid, auth rq = Some uid
                 ∧ data_field (request_resource rq) "userId"
                   = Some (VStr uid))).
Proof.
  split; [|split].
  - intros Hr. destruct (op rq) eqn:Hop; try discriminate Hr;
      open_rules Hop; by rewrite self_field_true, admin_condition_true.
  - intros [Hop | Hop]; open_rules Hop; apply self_field_true.
  - intros Hop. open_rules Hop.
    rewrite and3_true, or3_true, not_null_true, eq3_str_true, eq3_true.
    unfold auth_uid. split.
    + intros (_ & [Hadm | (v & Hv & Hk)]); [by left|right].
      destruct (auth rq) as [uid|]; cbn in Hv; [|done].
      injection Hv as <-. eauto.
    + intros [Hadm | (uid & Hu & Hk)].
      * split; [|by left]. unfold caller_role, get_user in Hadm.
        destruct (auth rq); [eauto | done].
      * rewrite Hu. split; [eauto|]. right. cbn. eauto.
Qed.

Lemma notifications_table_witness :
  let rq := Request (Some "root") OpDelete
              (Some {[ "userId" := VStr "bob" ]}) None
              {[ "root" := {[ "role" := VStr "admin" ]} ]} in
  (op rq = OpUpdate ∨ op rq = OpDelete)
  ∧ caller_role rq = Some (VStr "admin")
  ∧ allowed notifications rq = false.
Proof.
  intros rq.
  assert (Hop : op rq = OpUpdate ∨ op rq = OpDelete) by (right; reflexivity).
  split; [exact Hop|]. split; [reflexivity|].
  apply not_true_is_false. intros Hal.
  apply (proj1 (proj1 (proj2 (notifications_table rq)) Hop)) in Hal
    as (uid & Hu & Hk).
  vm_compute in Hu, Hk. congruence.
Defined.

(** X7: a user activity record can be created by every signed-in
    requester, read by the user it belongs to and by admins, and never
    updated or deleted. *)
Theorem userActivity_table (rq : request) :
  (op rq = OpCreate → (allowed userActivity rq = true ↔ is_Some (auth rq)))
  ∧ (covers Read (op rq) = true →
     (allowed userActivity rq = true
      ↔ ∃ uid, auth rq = Some uid
               ∧ (data_field (resource rq) "userId" = Some (VStr uid)
                  ∨ caller_role rq = Some (VStr "admin"))))
  ∧ (op rq = OpUpdate ∨ op rq = OpDelete → allowed userActivity rq = false).
Proof.
  split; [|split].
  - intros Hop. open_rules Hop. apply not_null_true.
  - intros Hr. destruct (op rq) eqn:Hop; try discriminate Hr;
      open_rules Hop; apply owner_or_admin_true.
  - intros [Hop | Hop]; unfold allowed, grants;
      cbn [userActivity existsb keywords condition]; rewrite Hop; reflexivity.
Qed.

Lemma userActivity_table_witness :
  let rq := Request (Some "bob") OpUpdate
              (Some {[ "userId" := VStr "bob" ]})
              (Some {[ "userId" := VStr "bob" ]})
              {[ "bob" := {[ "role" := VStr "admin" ]} ]} in
  (op rq = OpUpdate ∨ op rq = OpDelete)
  ∧ allowed userActivity rq = false.
Proof.
  intros rq.
  assert (Hop : op rq = OpUpdate ∨ op rq = OpDelete) by (left; reflexivity).
  split; [exact Hop|].
  exact (proj2 (proj2 (userActivity_table rq)) Hop).
Defined.

(** X8: an admin is allowed every request on saved articles, and a query
    (list) on them is allowed exactly to signed-in requesters, whatever
    the documents hold. *)
Theorem savedArticles_admin_and_list (savedArticleId : string) (rq : request) :
  (caller_role rq = Some (VStr "admin") →
     allowed (savedArticles savedArticleId) rq = true)
  ∧ (op rq = OpList →
     (allowed (savedArticles savedArticleId) rq = true ↔ is_Some (auth rq))).
Proof.
  split.
  - intros Hadm. unfold allowed, grants.
    cbn [savedArticles existsb keywords condition].
    rewrite !orb_true_iff. right; right; left. apply andb_true_iff. split.
    + by destruct (op rq).
    + by apply bool_decide_eq_true, admin_condition_true.
  - intros Hop. open_rules Hop. rewrite admin_condition_true.
    rewrite and3_true, not_null_true. split; [|tauto].
    intros [[? _] | [? | Hadm]]; [done..|].
    unfold caller_role, get_user in Hadm. destruct (auth rq); [eauto|done].
Qed.

Lemma savedArticles_admin_and_list_witness :
  let rq := Request (Some "root") OpDelete
              (Some {[ "userId" := VStr "bob" ]}) None
              {[ "root" := {[ "role" := VStr "admin" ]} ]} in
  caller_role rq = Some (VStr "admin")
  ∧ allowed (savedArticles "bob_A1") rq = true.
Proof.
  intros rq. split; [reflexivity|].
  exact (proj1 (savedArticles_admin_and_list "bob_A1" rq) eq_refl).
Defined.

(** X9: ownership by document id is a prefix test, so when a uid followed
    by an underscore is a prefix of another uid, the first user is allowed
    every request on the saved articles stored under the second user's
    compound ids. *)
Theorem savedArticles_uid_prefix (uid other articleId : string)
    (o : operation) (stored proposed : option doc) (db : gmap string doc) :
  String.prefix (uid +:+ "_") other = true →
  allowed (savedArticles (other +:+ "_" +:+ articleId))
    (Request (Some uid) o stored proposed db) = true.
Proof.
  intros Hpre. unfold allowed, grants.
  cbn [savedArticles existsb keywords condition].
  apply orb_true_iff. left. apply andb_true_iff. split; [by destruct o|].
  apply bool_decide_eq_true. cbn [auth].
  rewrite and3_true, !or3_true. split; [done|]. left; left.
  unfold auth_uid. cbn [auth fmap option_fmap option_map].
  change (Some (VStr uid)) with (str uid). rewrite id_prefix_rule.
  eapply string_prefix_trans; [exact Hpre|apply string_prefix_append].
Qed.

Lemma savedArticles_uid_prefix_witness :
  String.prefix ("U1" +:+ "_") "U1_b" = true
  ∧ allowed (savedArticles ("U1_b" +:+ "_" +:+ "A1"))
      (Request (Some "U1") OpDelete
         (Some {[ "userId" := VStr "U1_b" ]}) None ∅) = true.
Proof.
  split; [reflexivity|].
  exact (savedArticles_uid_prefix "U1" "U1_b" "A1" OpDelete
           (Some {[ "userId" := VStr "U1_b" ]}) None ∅ eq_refl).
Defined.

(** X10: a signed-in requester may create their own profile with the role
    admin, and once that document is stored every admin clause holds for
    them: they may approve writer requests, delete any article, update
    any profile and do anything on saved articles. *)
Theorem users_create_then_admin (db : gmap string doc) (uid : string)
    (proposed : doc) :
  proposed !! "role" = Some (VStr "admin") →
  users_allowed db (Some uid) OpCreate uid (Some proposed) = true
  ∧ ∀ (userId : string) (o : operation) (stored new : option doc),
      let db' := <[uid := proposed]> db in
      allowed writerRequests (Request (Some uid) OpUpdate stored new db') = true
      ∧ allowed articles (Request (Some uid) OpDelete stored new db') = true
      ∧ users_allowed db' (Some uid) OpUpdate userId new = true
      ∧ allowed (savedArticles userId) (Request (Some uid) o stored new db')
        = true.
Proof.
  intros Hrole. split; [apply users_create_own|].
  intros userId o stored new db'.
  assert (Hadm : ∀ o' s n,
    caller_role (Request (Some uid) o' s n db') = Some (VStr "admin")).
  { intros. unfold caller_role, get_user. cbn. subst db'.
    rewrite lookup_insert_eq. exact Hrole. }
  split; [|split; [|split]].
  - open_rules I. apply admin_only_true, Hadm.
  - open_rules I. apply owner_or_admin_true.
    exists uid. split; [done|]. right. apply Hadm.
  - unfold users_allowed, users_request. open_rules I.
    right. apply admin_condition_true, Hadm.
  - unfold allowed, grants. cbn [savedArticles existsb keywords condition].
    rewrite !orb_true_iff. right; right; left. apply andb_true_iff. split.
    + by destruct o.
    + apply bool_decide_eq_true, admin_condition_true, Hadm.
Qed.

Lemma users_create_then_admin_witness :
  let proposed : doc := {[ "role" := VStr "admin" ]} in
  proposed !! "role" = Some (VStr "admin")
  ∧ users_allowed ∅ (Some "u1") OpCreate "u1" (Some proposed) = true.
Proof.
  intros proposed. split; [reflexivity|].
  exact (proj1 (users_create_then_admin ∅ "u1" proposed eq_refl)).
Defined.

End RulesCoverage.
(** ** The session, operation by operation *)

Module AuthContextCoverage.
Import AuthContext AuthContextFacts.


(** In a session with the permissions of its role, an article can be
    edited by its author and by admins. *)
Lemma canEditArticle_derived (s : state) (p : UserProfile) (authorId : string) :
  userProfile s = Some p →
  permissions s = Some (generatePermissions (role p)) →
  canEditArticle s authorId = true ↔ uid p = authorId ∨ role p = "admin".
Proof.
  intros Hp Hc. unfold canEditArticle. rewrite Hp, Hc.
  rewrite orb_true_iff, String.eqb_eq. unfold generatePermissions.
  destruct (String.eqb (role p) "admin") eqn:Ha.
  - apply String.eqb_eq in Ha. cbn. tauto.
  - apply String.eqb_neq in Ha.
    destruct (String.eqb (role p) "infowriter"); cbn;
      (split; [intros [?|[=]]; by left | intros [?|?]; [by left | done]]).
Qed.

Lemma deleted_lookup (ls : gmap string string) (key : string) :
  delete LAST_UPDATED (delete PERMISSIONS (delete USER_PROFILE ls)) !! key
  = if bool_decide (key ∈ CACHE_KEYS) then None else ls !! key.
Proof.
  case_bool_decide as Hin; [by apply deleted_keys|].
  unfold CACHE_KEYS in Hin. rewrite !elem_of_cons, elem_of_nil in Hin.
  rewrite !lookup_delete_ne; [done|intros Heq; subst key; apply Hin; auto..].
Qed.

(** X12: [clearCache] removes the three cache keys and nothing else from
    the store, leaves profile and permissions alone, and clearing twice is
    clearing once. *)
Theorem clearCache_frame (s : state) :
  (∀ key, key ∉ CACHE_KEYS →
     localStorage (run clearCache s) !! key = localStorage s !! key)
  ∧ cache_cleared (run clearCache s)
  ∧ run clearCache (run clearCache s) = run clearCache s
  ∧ userProfile (run clearCache s) = userProfile s
  ∧ permissions (run clearCache s) = permissions s.
Proof.
  split; [|split; [apply clearCache_cleared|split; [|done]]].
  - intros key Hkey. unfold run. rewrite clearCache_eq. cbn [snd localStorage].
    rewrite deleted_lookup. by rewrite bool_decide_false.
  - unfold run. rewrite !clearCache_eq. cbn [snd]. f_equal.
    cbn [localStorage]. apply map_eq. intros key.
    rewrite !deleted_lookup. by case_bool_decide.
Qed.

Lemma clearCache_frame_witness :
  let s := initial {[ "theme" := "dark"; PERMISSIONS := "{}" ]} in
  ("theme" ∉ CACHE_KEYS)
  ∧ localStorage (run clearCache s) !! "theme" = localStorage s !! "theme".
Proof.
  intros s.
  assert (Hkey : "theme" ∉ CACHE_KEYS).
  { unfold CACHE_KEYS. rewrite !not_elem_of_cons.
    repeat split; [discriminate..|apply not_elem_of_nil]. }
  split; [exact Hkey|].
  exact (proj1 (clearCache_frame s) "theme" Hkey).
Defined.

Section Platform.
Variable parseInt : string → option Z.
Variable toString : Z → string.


Lemma setCachedData_eq {T} `{!JSON T} (key : string) (data : T) (t : Z)
    (s : state) :
  setCachedData toString key data t s =
  (Returned (),
   {| user := user s; userProfile := userProfile s;
      permissions := permissions s; loading := loading s;
      profileLoading := profileLoading s;
      localStorage :=
        <[LAST_UPDATED := toString t]>
          (<[key := stringify data]> (localStorage s)) |}).
Proof. reflexivity. Qed.

(** X13: what [setCachedData] writes, [getCachedData] reads back for five
    minutes; after that the read returns null and clears the cache. *)
Theorem cache_round_trip {T} `{!JSON T} (key : string) (data : T)
    (t now : Z) (s : state) :
  key ≠ LAST_UPDATED →
  stringify data ≠ "" → parse (stringify data) = Returned data →
  toString t ≠ "" → parseInt (toString t) = Some t →
  let s1 := run (setCachedData toString key data t) s in
  (now - t ≤ 300000 →
     getCachedData parseInt key now s1 = (Returned (Some data), s1))
  ∧ (300000 < now - t →
     getCachedData parseInt key now s1 = (Returned None, run clearCache s1)).
Proof.
  intros Hkey Hne Hparse Htne Ht s1.
  assert (Hk : localStorage s1 !! key = Some (stringify data)).
  { subst s1. unfold run. rewrite setCachedData_eq. cbn.
    rewrite lookup_insert_ne by done. apply lookup_insert_eq. }
  assert (Hl : localStorage s1 !! LAST_UPDATED = Some (toString t)).
  { subst s1. unfold run. rewrite setCachedData_eq. cbn.
    apply lookup_insert_eq. }
  rewrite (getCachedData_stored parseInt s1 key _ _ now t Hk Hne Hl Htne Ht).
  change CACHE_EXPIRY with 300000. split.
  - intros Hfresh. by rewrite (proj2 (Z.ltb_ge _ _) Hfresh), Hparse.
  - intros Hold. by rewrite (proj2 (Z.ltb_lt _ _) Hold).
Qed.

(** X14: the timestamp is shared by all keys, so writing one entry renews
    the others: an entry is read back as long as the latest write of any
    key is at most five minutes old, however old the entry itself is. *)
Theorem cache_shared_timestamp {T1 T2} `{!JSON T1, !JSON T2}
    (key1 key2 : string) (d1 : T1) (d2 : T2) (t1 t2 now : Z) (s : state) :
  key1 ≠ LAST_UPDATED → key2 ≠ LAST_UPDATED → key1 ≠ key2 →
  stringify d1 ≠ "" → parse (stringify d1) = Returned d1 →
  toString t2 ≠ "" → parseInt (toString t2) = Some t2 →
  now - t2 ≤ 300000 →
  let s2 := run (setCachedData toString key2 d2 t2)
              (run (setCachedData toString key1 d1 t1) s) in
  getCachedData parseInt key1 now s2 = (Returned (Some d1), s2).
Proof.
  intros Hk1 Hk2 Hne Hs1 Hparse Htne Ht Hfresh s2.
  assert (Hk : localStorage s2 !! key1 = Some (stringify d1)).
  { subst s2. unfold run. rewrite !setCachedData_eq. cbn.
    rewrite !lookup_insert_ne by done. apply lookup_insert_eq. }
  assert (Hl : localStorage s2 !! LAST_UPDATED = Some (toString t2)).
  { subst s2. unfold run. rewrite !setCachedData_eq. cbn.
    apply lookup_insert_eq. }
  rewrite (getCachedData_stored parseInt s2 key1 _ _ now t2 Hk Hs1 Hl Htne Ht).
  change CACHE_EXPIRY with 300000.
  by rewrite (proj2 (Z.ltb_ge _ _) Hfresh), Hparse.
Qed.

Lemma truthy_false (v : option string) :
  truthy v = false ↔ v = None ∨ v = Some "".
Proof.
  destruct v as [x|]; cbn; [|tauto].
  rewrite negb_false_iff, String.eqb_eq.
  split; [intros ->; by right | intros [[=] | [= ->]]; done].
Qed.

Lemma getCachedData_absent {T} `{!JSON T} (key : string) (now : Z)
    (s : state) :
  truthy (localStorage s !! key) = false
  ∨ truthy (localStorage s !! LAST_UPDATED) = false →
  getCachedData (T:=T) parseInt key now s = (Returned None, s).
Proof.
  intros Habs.
  unfold getCachedData, try_catch, mbind, M_bind, getItem. cbv beta.
  destruct (truthy (localStorage s !! key)) eqn:Hk; [|reflexivity].
  destruct Habs as [[=] | Hl]. cbn [negb]. cbv beta iota. by rewrite Hl.
Qed.

Lemma getCachedData_safe {T} `{!JSON T} (key : string) (now : Z)
    (s : state) :
  ∃ r s', getCachedData (T:=T) parseInt key now s = (Returned r, s')
    ∧ (s' = s ∨ (r = None ∧ s' = run clearCache s)).
Proof.
  unfold getCachedData, try_catch, mbind, M_bind, getItem. cbv beta.
  destruct (negb (truthy (localStorage s !! key))); [cbn; eauto|].
  destruct (negb (truthy (localStorage s !! LAST_UPDATED))); [cbn; eauto|].
  destruct (expired parseInt now _).
  - rewrite clearCache_eq. cbn. eexists _, _. split; [reflexivity|].
    right. split; [done|]. unfold run. by rewrite clearCache_eq.
  - unfold await. destruct (parse _); cbn; eauto.
Qed.

(** X15: a cache read never throws, and it leaves the state as it is or
    returns null with the cache keys cleared; when the entry or the
    timestamp is missing or empty it returns null and changes nothing. *)
Theorem getCachedData_edges {T} `{!JSON T} (key : string) (now : Z)
    (s : state) :
  (∃ r s', getCachedData (T:=T) parseInt key now s = (Returned r, s')
     ∧ (s' = s ∨ (r = None ∧ s' = run clearCache s)))
  ∧ (truthy (localStorage s !! key) = false
     ∨ truthy (localStorage s !! LAST_UPDATED) = false →
     getCachedData (T:=T) parseInt key now s = (Returned None, s)).
Proof.
  split; [apply getCachedData_safe | apply getCachedData_absent].
Qed.

(** X16: an entry whose timestamp does not parse as a number never
    expires: it is read back at every time. *)
Theorem getCachedData_unparsed_timestamp {T} `{!JSON T}
    (key cached lastUpdated : string) (now : Z) (s : state) :
  localStorage s !! key = Some cached → cached ≠ "" →
  localStorage s !! LAST_UPDATED = Some lastUpdated → lastUpdated ≠ "" →
  parseInt lastUpdated = None →
  getCachedData parseInt key now s =
    (match parse cached with
     | Returned v => Returned (Some v)
     | Thrown _ => Returned None
     end, s).
Proof.
  intros Hc Hcne%String.eqb_neq Hl Hlne%String.eqb_neq Ht.
  unfold getCachedData, try_catch, mbind, M_bind, getItem, expired, truthy.
  cbv beta. rewrite Hc. cbv beta iota. rewrite Hcne. cbn [negb].
  rewrite Hl. cbv beta iota. rewrite Hlne. cbn [negb default].
  unfold id. rewrite Ht. unfold await. by destruct (parse cached).
Qed.

Context {profile_json : JSON UserProfile}
        {permissions_json : JSON CachedPermissions}.


Lemma publishProfile_ok u data now1 now2 created updated s :
  date_value (data_createdAt data) = Some created →
  date_value (data_updatedAt data) = Some updated →
  let p := profile_of u data created updated in
  publishProfile toString u data now1 now2 s =
  (Returned (),
   {| user := user s; userProfile := Some p;
      permissions := Some (generatePermissions (role p));
      loading := loading s; profileLoading := profileLoading s;
      localStorage :=
        <[LAST_UPDATED := toString now2]>
          (<[PERMISSIONS := stringify (generatePermissions (role p))]>
             (<[LAST_UPDATED := toString now1]>
                (<[USER_PROFILE := stringify p]> (localStorage s)))) |}).
Proof.
  destruct data as [dn r pp c m w]. cbn [data_createdAt data_updatedAt].
  destruct c, m; cbn [date_value]; intros [= <-] [= <-]; reflexivity.
Qed.

Lemma publishProfile_bad_date u data now1 now2 s :
  date_value (data_createdAt data) = None
  ∨ date_value (data_updatedAt data) = None →
  ∃ error, publishProfile toString u data now1 now2 s = (Thrown error, s).
Proof.
  destruct data as [dn r pp c m w]. cbn [data_createdAt data_updatedAt].
  destruct c, m; cbn [date_value]; intros [[=] | [=]]; eexists; reflexivity.
Qed.

(** X17: when the account reloads and its profile document exists with
    readable dates, [loadUserProfile] returns with the profile built from
    them (the role of the document, or user when it has none), the
    permissions of that role, the loading flag down, and both written to
    the cache under the time of the second write. *)
Theorem loadUserProfile_success (e : env) (firebaseUser refreshed : User)
    (data : DocumentData) (created updated : option Z) (s : state) :
  reload e firebaseUser = Returned refreshed →
  getDoc e (user_uid refreshed) = Returned (Some data) →
  date_value (data_createdAt data) = Some created →
  date_value (data_updatedAt data) = Some updated →
  let p := profile_of refreshed data created updated in
  ∃ s', loadUserProfile toString e firebaseUser s = (Returned (), s')
    ∧ userProfile s' = Some p
    ∧ permissions s' = Some (generatePermissions (role p))
    ∧ profileLoading s' = false
    ∧ localStorage s' !! USER_PROFILE = Some (stringify p)
    ∧ localStorage s' !! PERMISSIONS
      = Some (stringify (generatePermissions (role p)))
    ∧ localStorage s' !! LAST_UPDATED = Some (toString (now_permissions e)).
Proof.
  intros Hr Hg Hc Hu p.
  unfold loadUserProfile, try_finally, try_catch.
  unfold mbind at 1 2 3, M_bind at 1 2 3, await.
  cbn [setProfileLoading]. rewrite Hr, Hg.
  rewrite (publishProfile_ok refreshed data _ _ created updated _ Hc Hu).
  eexists. split; [reflexivity|]. cbn.
  repeat split; by simplify_map_eq.
Qed.

(** X18: a profile document whose [createdAt] or [updatedAt] is not a
    timestamp makes the load fail like a missing document: no profile, no
    permissions, the cache cleared, and no exception for the caller. *)
Theorem loadUserProfile_bad_date (e : env) (firebaseUser refreshed : User)
    (data : DocumentData) (s : state) :
  reload e firebaseUser = Returned refreshed →
  getDoc e (user_uid refreshed) = Returned (Some data) →
  date_value (data_createdAt data) = None
  ∨ date_value (data_updatedAt data) = None →
  ∃ s', loadUserProfile toString e firebaseUser s = (Returned (), s')
    ∧ userProfile s' = None ∧ permissions s' = None
    ∧ cache_cleared s' ∧ profileLoading s' = false.
Proof.
  intros Hr Hg Hbad.
  unfold loadUserProfile, try_finally, try_catch.
  unfold mbind at 1 2 3, M_bind at 1 2 3, await.
  cbn [setProfileLoading]. rewrite Hr, Hg.
  match goal with
  | |- context [publishProfile _ _ _ _ _ ?s0] =>
      destruct (publishProfile_bad_date refreshed data (now_profile e)
                  (now_permissions e) s0 Hbad) as [err ->]
  end.
  eexists. split; [reflexivity|]. cbn. repeat split.
  intros key Hkey. by apply deleted_keys.
Qed.

(** X19: when the auth listener reports that nobody is signed in, the
    account, the profile, the permissions and the cache keys are dropped,
    loading ends, and every role check and permission check of the
    context answers no. *)
Theorem sign_out (e : env) (s : state) :
  ∃ s', onAuthStateChanged toString e None s = (Returned (), s')
    ∧ user s' = None ∧ userProfile s' = None ∧ permissions s' = None
    ∧ loading s' = false ∧ cache_cleared s'
    ∧ isAdmin s' = false ∧ isInfoWriter s' = false ∧ isUser s' = false
    ∧ (∀ r, hasRole s' r = false)
    ∧ (∀ roles, hasAnyRole s' roles = false)
    ∧ (∀ authorId, canEditArticle s' authorId = false)
    ∧ getDashboardRoute s' = "/dashboard".
Proof.
  exists {| user := None; userProfile := None; permissions := None;
            loading := false; profileLoading := profileLoading s;
            localStorage :=
              delete LAST_UPDATED (delete PERMISSIONS
                (delete USER_PROFILE (localStorage s))) |}.
  split; [reflexivity|].
  unfold isAdmin, isInfoWriter, isUser, hasRole, hasAnyRole, canEditArticle,
    getDashboardRoute, cache_cleared.
  cbn [user userProfile permissions loading localStorage].
  split; [done|]. split; [done|]. split; [done|]. split; [done|].
  split; [intros key Hkey; by apply deleted_keys|]. repeat split.
Qed.

(** X20: the snapshot callback does nothing for a missing profile
    document, so the session it finds stays; for an existing one with
    readable dates it publishes the profile with the permissions of the
    document's role; and on an unreadable date it throws, leaving the
    state as it was. *)
Theorem onProfileSnapshot_cases (u : User) (now1 now2 : Z) (s : state) :
  onProfileSnapshot toString u None now1 now2 s = (Returned (), s)
  ∧ (∀ data created updated,
       date_value (data_createdAt data) = Some created →
       date_value (data_updatedAt data) = Some updated →
       let p := profile_of u data created updated in
       let s' := run (onProfileSnapshot toString u (Some data) now1 now2) s in
       userProfile s' = Some p
       ∧ permissions s' = Some (generatePermissions (role p))
       ∧ role p = or_else (data_role data) "user")
  ∧ (∀ data,
       date_value (data_createdAt data) = None
       ∨ date_value (data_updatedAt data) = None →
       ∃ error,
         onProfileSnapshot toString u (Some data) now1 now2 s
         = (Thrown error, s)).
Proof.
  split; [reflexivity|]. split.
  - intros data created updated Hc Hu p s'. subst s'. unfold run.
    cbn [onProfileSnapshot].
    by rewrite (publishProfile_ok u data _ _ created updated _ Hc Hu).
  - intros data Hbad. cbn [onProfileSnapshot].
    by apply publishProfile_bad_date.
Qed.

Lemma getCachedData_fresh {T} `{!JSON T} (key lastUpdated : string) (v : T)
    (now t : Z) (s : state) :
  localStorage s !! key = Some (stringify v) → stringify v ≠ "" →
  parse (stringify v) = Returned v →
  localStorage s !! LAST_UPDATED = Some lastUpdated → lastUpdated ≠ "" →
  parseInt lastUpdated = Some t → now - t ≤ 300000 →
  getCachedData parseInt key now s = (Returned (Some v), s).
Proof.
  intros Hk Hne Hparse Hl Hlne Ht Hfresh.
  rewrite (getCachedData_stored parseInt s key _ _ now t Hk Hne Hl Hlne Ht).
  change CACHE_EXPIRY with 300000.
  by rewrite (proj2 (Z.ltb_ge _ _) Hfresh), Hparse.
Qed.

(** X21: on mount, a cache that holds a profile and permissions written
    at most five minutes before both reads restores exactly them and
    leaves the store alone; if either read comes later, nothing is
    restored and the cache is cleared. *)
Theorem initFromCache_restores (s : state) (p : UserProfile)
    (c : CachedPermissions) (lastUpdated : string) (t now1 now2 : Z) :
  localStorage s !! USER_PROFILE = Some (stringify p) → stringify p ≠ "" →
  parse (stringify p) = Returned p →
  localStorage s !! PERMISSIONS = Some (stringify c) → stringify c ≠ "" →
  parse (stringify c) = Returned c →
  localStorage s !! LAST_UPDATED = Some lastUpdated → lastUpdated ≠ "" →
  parseInt lastUpdated = Some t →
  (now1 - t ≤ 300000 → now2 - t ≤ 300000 →
     let s' := run (initFromCache parseInt now1 now2) s in
     userProfile s' = Some p ∧ permissions s' = Some c
     ∧ localStorage s' = localStorage s)
  ∧ (300000 < now1 - t ∨ 300000 < now2 - t →
     let s' := run (initFromCache parseInt now1 now2) s in
     userProfile s' = userProfile s ∧ permissions s' = permissions s
     ∧ cache_cleared s').
Proof.
  intros Hp Hpne Hpp Hc Hcne Hcp Hl Hlne Ht. split.
  - intros H1 H2.
    assert (Heq : initFromCache parseInt now1 now2 s
                  = (setUserProfile (Some p) ;; setPermissions (Some c)) s).
    { unfold initFromCache. unfold mbind at 1, M_bind at 1.
      rewrite (getCachedData_fresh USER_PROFILE lastUpdated p now1 t s)
        by done.
      unfold mbind at 1, M_bind at 1.
      by rewrite (getCachedData_fresh PERMISSIONS lastUpdated c now2 t s)
        by done. }
    intros s'. subst s'. unfold run. rewrite Heq. done.
  - intros Hstale.
    assert (Heq : initFromCache parseInt now1 now2 s
                  = (Returned (), run clearCache s)).
    { unfold initFromCache. unfold mbind at 1, M_bind at 1.
      rewrite (getCachedData_stored parseInt s USER_PROFILE _ _ now1 t
                 Hp Hpne Hl Hlne Ht).
      change CACHE_EXPIRY with 300000.
      destruct (Z.ltb_spec 300000 (now1 - t)) as [Hold | Hfresh].
      - unfold mbind at 1, M_bind at 1.
        rewrite (getCachedData_absent PERMISSIONS now2 (run clearCache s));
          [done|].
        left. apply truthy_false. left.
        apply clearCache_cleared. unfold CACHE_KEYS.
        rewrite !elem_of_cons. auto.
      - destruct Hstale as [? | Hold2]; [lia|].
        rewrite Hpp. unfold mbind at 1, M_bind at 1.
        rewrite (getCachedData_stored parseInt s PERMISSIONS _ _ now2 t
                   Hc Hcne Hl Hlne Ht).
        change CACHE_EXPIRY with 300000.
        by rewrite (proj2 (Z.ltb_lt _ _) Hold2). }
    intros s'. subst s'. unfold run at 1 2 3. rewrite Heq. cbn [snd].
    split; [done|]. split; [done|]. apply clearCache_cleared.
Qed.

End Platform.


Section Mirror.
Import Rules RulesFacts.

(** X11: when the session holds the profile and the permissions of its
    role, and the users collection stores that role for the profile's
    uid, the client's checks agree with the rules on articles: an update
    or a delete is allowed exactly when [canEditArticle] says so, and a
    create exactly when [canCreateArticles] holds and the author is the
    user. *)
Theorem gates_mirror_rules (s : state) (p : UserProfile)
    (db : gmap string doc) (article : doc) (authorId : string)
    (other : option doc) :
  userProfile s = Some p →
  permissions s = Some (generatePermissions (role p)) →
  mirrors db p →
  article !! "authorId" = Some (VStr authorId) →
  allowed articles (Request (Some (uid p)) OpUpdate (Some article) other db)
    = canEditArticle s authorId
  ∧ allowed articles (Request (Some (uid p)) OpDelete (Some article) other db)
    = canEditArticle s authorId
  ∧ allowed articles (Request (Some (uid p)) OpCreate other (Some article) db)
    = canCreateArticles (generatePermissions (role p))
      && String.eqb (uid p) authorId.
Proof.
  intros Hp Hc Hdb Ha.
  assert (Hedit : ∀ o, o = OpUpdate ∨ o = OpDelete →
    allowed articles (Request (Some (uid p)) o (Some article) other db)
    = canEditArticle s authorId).
  { intros o Ho. apply Bool.eq_iff_eq_true.
    rewrite (canEditArticle_derived s p authorId Hp Hc).
    unfold allowed, grants. cbn [articles existsb keywords condition op].
    destruct Ho as [-> | ->]; cbn [covers orb andb];
      rewrite ?orb_false_r, bool_decide_eq_true, and3_true, or3_true,
        not_null_true, eq3_true, eq3_str_true;
      unfold auth_uid, caller_role, get_user; cbn;
      change (db !! uid p ≫= (λ d : doc, d !! "role")) with
        (stored_role db (uid p)); rewrite Hdb, Ha;
      (split;
       [ intros (_ & [(v & [= <-] & [= ->]) | [= ->]]); [by left | by right]
       | intros [-> | ->]; (split; [eauto|]); [left; eauto | by right] ]). }
  split; [apply Hedit; by left|]. split; [apply Hedit; by right|].
  apply Bool.eq_iff_eq_true.
  unfold allowed, grants. cbn [articles existsb keywords condition op].
  cbn [covers orb andb].
  rewrite ?orb_false_r, bool_decide_eq_true, !and3_true, not_null_true,
    in_list_true, eq3_true.
  unfold auth_uid, caller_role, get_user. cbn.
  change (db !! uid p ≫= (λ d : doc, d !! "role")) with
    (stored_role db (uid p)). rewrite Hdb, Ha.
  rewrite andb_true_iff, String.eqb_eq. unfold generatePermissions.
  split.
  - intros ((_ & v & [= <-] & Hin%in_writer_roles) & w & [= <-] & [= ->]).
    split; [|done]. destruct Hin as [[= ->] | [= ->]]; reflexivity.
  - intros [Hcan ->]. split; [split; [eauto|]|eauto].
    eexists. split; [reflexivity|]. apply in_writer_roles.
    destruct (String.eqb (role p) "admin") eqn:Hadm.
    + apply String.eqb_eq in Hadm. right. by rewrite Hadm.
    + destruct (String.eqb (role p) "infowriter") eqn:Hw; [|done].
      apply String.eqb_eq in Hw. left. by rewrite Hw.
Qed.
End Mirror.

(** *** The theorems at work on the concrete platform *)

Lemma gates_mirror_rules_witness :
  let p := {| uid := "w1"; email := "w@example.org"; displayName := "W";
              role := "infowriter"; emailVerified := true;
              profilePicture := ""; createdAt := None; updatedAt := None;
              requestedWriterAccess := None |} in
  let s := {| user := None; userProfile := Some p;
              permissions := Some (generatePermissions "infowriter");
              loading := false; profileLoading := false;
              localStorage := ∅ |} in
  let db : gmap string Rules.doc :=
    {[ "w1" := {[ "role" := Rules.VStr "infowriter" ]} ]} in
  let article : Rules.doc :=
    {[ "authorId" := Rules.VStr "bob"; "status" := Rules.VStr "published" ]} in
  userProfile s = Some p
  ∧ permissions s = Some (generatePermissions (role p))
  ∧ mirrors db p
  ∧ article !! "authorId" = Some (Rules.VStr "bob")
  ∧ Rules.allowed Rules.articles
      (Rules.Request (Some (uid p)) Rules.OpUpdate (Some article) None db)
    = canEditArticle s "bob".
Proof.
  intros p s db article.
  split; [reflexivity|]. split; [reflexivity|]. split; [reflexivity|].
  split; [reflexivity|].
  exact (proj1 (gates_mirror_rules s p db article "bob" None
                  eq_refl eq_refl eq_refl eq_refl)).
Defined.

Lemma cache_round_trip_witness :
  let s := initial ∅ in
  let s1 := run (setCachedData (T:=string) Browser.toString PERMISSIONS
                   "{}" 1000) s in
  PERMISSIONS ≠ LAST_UPDATED
  ∧ stringify (T:=string) "{}" ≠ "" ∧ parse (stringify "{}") = Returned "{}"
  ∧ Browser.toString 1000 ≠ ""
  ∧ Browser.parseInt (Browser.toString 1000) = Some 1000
  ∧ 2000 - 1000 ≤ 300000
  ∧ getCachedData Browser.parseInt PERMISSIONS 2000 s1
    = (Returned (Some "{}"), s1).
Proof.
  intros s s1.
  assert (H1 : PERMISSIONS ≠ LAST_UPDATED) by discriminate.
  assert (H2 : stringify (T:=string) "{}" ≠ "") by discriminate.
  assert (H4 : Browser.toString 1000 ≠ "") by (vm_compute; discriminate).
  assert (H5 : Browser.parseInt (Browser.toString 1000) = Some 1000)
    by (vm_compute; reflexivity).
  assert (H6 : 2000 - 1000 ≤ 300000) by lia.
  split; [exact H1|]. split; [exact H2|]. split; [reflexivity|].
  split; [exact H4|]. split; [exact H5|]. split; [exact H6|].
  exact (proj1 (cache_round_trip Browser.parseInt Browser.toString
                  PERMISSIONS "{}" 1000 2000 s H1 H2 eq_refl H4 H5) H6).
Defined.

Lemma cache_shared_timestamp_witness :
  let s2 := run (setCachedData (T:=string) Browser.toString PERMISSIONS
                   "{}" 900000)
              (run (setCachedData (T:=string) Browser.toString USER_PROFILE
                      "{}" 1000) (initial ∅)) in
  USER_PROFILE ≠ LAST_UPDATED ∧ PERMISSIONS ≠ LAST_UPDATED
  ∧ USER_PROFILE ≠ PERMISSIONS
  ∧ stringify (T:=string) "{}" ≠ "" ∧ parse (stringify "{}") = Returned "{}"
  ∧ Browser.toString 900000 ≠ ""
  ∧ Browser.parseInt (Browser.toString 900000) = Some 900000
  ∧ 1000000 - 900000 ≤ 300000
  ∧ getCachedData Browser.parseInt USER_PROFILE 1000000 s2
    = (Returned (Some "{}"), s2).
Proof.
  intros s2.
  assert (H1 : USER_PROFILE ≠ LAST_UPDATED) by discriminate.
  assert (H2 : PERMISSIONS ≠ LAST_UPDATED) by discriminate.
  assert (H3 : USER_PROFILE ≠ PERMISSIONS) by discriminate.
  assert (H4 : stringify (T:=string) "{}" ≠ "") by discriminate.
  assert (H6 : Browser.toString 900000 ≠ "") by (vm_compute; discriminate).
  assert (H7 : Browser.parseInt (Browser.toString 900000) = Some 900000)
    by (vm_compute; reflexivity).
  assert (H8 : 1000000 - 900000 ≤ 300000) by lia.
  split; [exact H1|]. split; [exact H2|]. split; [exact H3|].
  split; [exact H4|]. split; [reflexivity|]. split; [exact H6|].
  split; [exact H7|]. split; [exact H8|].
  exact (cache_shared_timestamp Browser.parseInt Browser.toString
           USER_PROFILE PERMISSIONS "{}" "{}" 1000 900000 1000000 (initial ∅)
           H1 H2 H3 H4 eq_refl H6 H7 H8).
Defined.

Lemma getCachedData_edges_witness :
  let s := initial {[ PERMISSIONS := "{}" ]} in
  (truthy (localStorage s !! PERMISSIONS) = false
   ∨ truthy (localStorage s !! LAST_UPDATED) = false)
  ∧ getCachedData (T:=string) Browser.parseInt PERMISSIONS 5 s
    = (Returned None, s).
Proof.
  intros s.
  assert (H : truthy (localStorage s !! PERMISSIONS) = false
              ∨ truthy (localStorage s !! LAST_UPDATED) = false)
    by (right; reflexivity).
  split; [exact H|].
  exact (proj2 (getCachedData_edges Browser.parseInt PERMISSIONS 5 s) H).
Defined.

Lemma getCachedData_unparsed_timestamp_witness :
  let s := initial {[ PERMISSIONS := "{}"; LAST_UPDATED := "soon" ]} in
  localStorage s !! PERMISSIONS = Some "{}" ∧ "{}" ≠ ""
  ∧ localStorage s !! LAST_UPDATED = Some "soon" ∧ "soon" ≠ ""
  ∧ Browser.parseInt "soon" = None
  ∧ getCachedData (T:=string) Browser.parseInt PERMISSIONS 999999999 s
    = (Returned (Some "{}"), s).
Proof.
  intros s.
  assert (H2 : "{}" ≠ "") by discriminate.
  assert (H4 : "soon" ≠ "") by discriminate.
  split; [reflexivity|]. split; [exact H2|]. split; [reflexivity|].
  split; [exact H4|]. split; [reflexivity|].
  exact (getCachedData_unparsed_timestamp Browser.parseInt PERMISSIONS
           "{}" "soon" 999999999 s eq_refl H2 eq_refl H4 eq_refl).
Defined.

Lemma loadUserProfile_success_witness :
  let account := {| user_uid := "w1"; user_email := Some "w@example.org";
                    user_displayName := None; user_emailVerified := true |} in
  let data := {| data_displayName := None; data_role := Some "infowriter";
                 data_profilePicture := None; data_createdAt := Timestamp 12;
                 data_updatedAt := NoDate;
                 data_requestedWriterAccess := None |} in
  let e := {| reload := Returned; getDoc := λ _, Returned (Some data);
              now_profile := 7; now_permissions := 8 |} in
  reload e account = Returned account
  ∧ getDoc e (user_uid account) = Returned (Some data)
  ∧ date_value (data_createdAt data) = Some (Some 12)
  ∧ date_value (data_updatedAt data) = Some None
  ∧ ∃ s', loadUserProfile Browser.toString
            (profile_json := Browser.profile_codec)
            (permissions_json := Browser.permissions_codec)
            e account (initial ∅) = (Returned (), s')
      ∧ userProfile s' = Some (profile_of account data (Some 12) None).
Proof.
  intros account data e.
  split; [reflexivity|]. split; [reflexivity|]. split; [reflexivity|].
  split; [reflexivity|].
  destruct (loadUserProfile_success Browser.toString
              (profile_json := Browser.profile_codec)
              (permissions_json := Browser.permissions_codec)
              e account account data (Some 12) None (initial ∅)
              eq_refl eq_refl eq_refl eq_refl) as (s' & Heq & Hp & _).
  exists s'. split; [exact Heq | exact Hp].
Defined.

Lemma loadUserProfile_bad_date_witness :
  let account := {| user_uid := "w1"; user_email := Some "w@example.org";
                    user_displayName := None; user_emailVerified := true |} in
  let data := {| data_displayName := None; data_role := Some "admin";
                 data_profilePicture := None;
                 data_createdAt := NotATimestamp;
                 data_updatedAt := NoDate;
                 data_requestedWriterAccess := None |} in
  let e := {| reload := Returned; getDoc := λ _, Returned (Some data);
              now_profile := 7; now_permissions := 8 |} in
  reload e account = Returned account
  ∧ getDoc e (user_uid account) = Returned (Some data)
  ∧ (date_value (data_createdAt data) = None
     ∨ date_value (data_updatedAt data) = None)
  ∧ ∃ s', loadUserProfile Browser.toString
            (profile_json := Browser.profile_codec)
            (permissions_json := Browser.permissions_codec)
            e account (initial ∅) = (Returned (), s')
      ∧ userProfile s' = None ∧ permissions s' = None.
Proof.
  intros account data e.
  assert (Hbad : date_value (data_createdAt data) = None
                 ∨ date_value (data_updatedAt data) = None)
    by (left; reflexivity).
  split; [reflexivity|]. split; [reflexivity|]. split; [exact Hbad|].
  destruct (loadUserProfile_bad_date Browser.toString
              (profile_json := Browser.profile_codec)
              (permissions_json := Browser.permissions_codec)
              e account account data (initial ∅) eq_refl eq_refl Hbad)
    as (s' & Heq & Hp & Hc & _).
  exists s'. split; [exact Heq|]. split; [exact Hp | exact Hc].
Defined.

Lemma onProfileSnapshot_cases_witness :
  let account := {| user_uid := "w1"; user_email := Some "w@example.org";
                    user_displayName := None; user_emailVerified := true |} in
  let data := {| data_displayName := None; data_role := Some "admin";
                 data_profilePicture := None; data_createdAt := NoDate;
                 data_updatedAt := NoDate;
                 data_requestedWriterAccess := None |} in
  let s' := run (onProfileSnapshot Browser.toString
                   (profile_json := Browser.profile_codec)
                   (permissions_json := Browser.permissions_codec)
                   account (Some data) 7 8) (initial ∅) in
  date_value (data_createdAt data) = Some None
  ∧ date_value (data_updatedAt data) = Some None
  ∧ permissions s' = Some (generatePermissions "admin").
Proof.
  intros account data s'.
  split; [reflexivity|]. split; [reflexivity|].
  exact (proj1 (proj2 (proj1 (proj2
           (onProfileSnapshot_cases Browser.toString
              (profile_json := Browser.profile_codec)
              (permissions_json := Browser.permissions_codec)
              account 7 8 (initial ∅)))
           data None None eq_refl eq_refl))).
Defined.

Lemma initFromCache_restores_witness :
  let p := {| uid := "w1"; email := "w@example.org"; displayName := "W";
              role := "infowriter"; emailVerified := true;
              profilePicture := ""; createdAt := Some 12; updatedAt := None;
              requestedWriterAccess := Some false |} in
  let c := generatePermissions "infowriter" in
  let s := initial {[ USER_PROFILE := Browser.profile_lines p;
                      PERMISSIONS := Browser.permissions_lines c;
                      LAST_UPDATED := "1000" ]} in
  let s' := run (initFromCache Browser.parseInt
                   (profile_json := Browser.profile_codec)
                   (permissions_json := Browser.permissions_codec)
                   2000 2001) s in
  localStorage s !! USER_PROFILE
    = Some (stringify (JSON := Browser.profile_codec) p)
  ∧ stringify (JSON := Browser.profile_codec) p ≠ ""
  ∧ parse (JSON := Browser.profile_codec)
      (stringify (JSON := Browser.profile_codec) p) = Returned p
  ∧ localStorage s !! PERMISSIONS
    = Some (stringify (JSON := Browser.permissions_codec) c)
  ∧ stringify (JSON := Browser.permissions_codec) c ≠ ""
  ∧ parse (JSON := Browser.permissions_codec)
      (stringify (JSON := Browser.permissions_codec) c) = Returned c
  ∧ localStorage s !! LAST_UPDATED = Some "1000" ∧ "1000" ≠ ""
  ∧ Browser.parseInt "1000" = Some 1000
  ∧ 2000 - 1000 ≤ 300000 ∧ 2001 - 1000 ≤ 300000
  ∧ userProfile s' = Some p ∧ permissions s' = Some c.
Proof.
  intros p c s s'.
  assert (H1 : localStorage s !! USER_PROFILE
               = Some (stringify (JSON := Browser.profile_codec) p))
    by (vm_compute; reflexivity).
  assert (H2 : stringify (JSON := Browser.profile_codec) p ≠ "")
    by (vm_compute; discriminate).
  assert (H3 : parse (JSON := Browser.profile_codec)
                 (stringify (JSON := Browser.profile_codec) p) = Returned p)
    by (vm_compute; reflexivity).
  assert (H4 : localStorage s !! PERMISSIONS
               = Some (stringify (JSON := Browser.permissions_codec) c))
    by (vm_compute; reflexivity).
  assert (H5 : stringify (JSON := Browser.permissions_codec) c ≠ "")
    by (vm_compute; discriminate).
  assert (H6 : parse (JSON := Browser.permissions_codec)
                 (stringify (JSON := Browser.permissions_codec) c)
               = Returned c)
    by (vm_compute; reflexivity).
  assert (H7 : localStorage s !! LAST_UPDATED = Some "1000")
    by (vm_compute; reflexivity).
  assert (H8 : "1000" ≠ "") by discriminate.
  assert (H9 : Browser.parseInt "1000" = Some 1000)
    by (vm_compute; reflexivity).
  assert (H10 : 2000 - 1000 ≤ 300000) by lia.
  assert (H11 : 2001 - 1000 ≤ 300000) by lia.
  split; [exact H1|]. split; [exact H2|]. split; [exact H3|].
  split; [exact H4|]. split; [exact H5|]. split; [exact H6|].
  split; [exact H7|]. split; [exact H8|]. split; [exact H9|].
  split; [exact H10|]. split; [exact H11|].
  destruct (proj1 (initFromCache_restores Browser.parseInt
                     (profile_json := Browser.profile_codec)
                     (permissions_json := Browser.permissions_codec)
                     s p c "1000" 1000 2000 2001
                     H1 H2 H3 H4 H5 H6 H7 H8 H9) H10 H11) as (Hp & Hc & _).
  split; [exact Hp | exact Hc].
Defined.

End AuthContextCoverage.
(** ** The performance utilities *)

Module PerformanceFacts.
Import PerformanceOptimizer.
Local Open Scope list_scope.

Section DataCacheFacts.
Import DataCache.
Context {T : Type}.
Implicit Types cache : gmap string (entry T).


(** X22: what [DataCache.set] stores, [DataCache.get] returns while its age
    is within the time to live (five minutes when none is given) and
    leaves the map alone; after that [get] returns null and drops the
    entry; and a [set] does not change what [get] returns for other
    keys. *)
Theorem DataCache_set_get (key : string) (d : T) (ttlMs : option Z)
    (t now : Z) cache :
  let limit := default default_ttl ttlMs in
  let cache1 := set key d ttlMs t cache in
  (now - t ≤ limit → get key now cache1 = (Some d, cache1))
  ∧ (limit < now - t → get key now cache1 = (None, delete key cache))
  ∧ (∀ other, other ≠ key →
       fst (get other now cache1) = fst (get other now cache)).
Proof.
  intros limit cache1. subst cache1 limit. unfold get, set, isExpired.
  rewrite lookup_insert_eq. cbn [ttl timestamp data]. split; [|split].
  - intros Hfresh. by rewrite (proj2 (Z.ltb_ge _ _) Hfresh).
  - intros Hold. rewrite (proj2 (Z.ltb_lt _ _) Hold).
    by rewrite delete_insert_eq.
  - intros other Hne. rewrite lookup_insert_ne by done.
    destruct (cache !! other) as [c|]; [|done]. by destruct (_ <? _)%Z.
Qed.

Lemma clearExpired_lookup (now : Z) cache (key : string) :
  clearExpired now cache !! key
  = match cache !! key with
    | Some c => if isExpired now c then None else Some c
    | None => None
    end.
Proof.
  unfold clearExpired.
  destruct (cache !! key) as [c|] eqn:Hc.
  - destruct (isExpired now c) eqn:He.
    + apply map_lookup_filter_None. right. intros c' Hc'. cbn.
      rewrite Hc in Hc'. injection Hc' as <-. by rewrite He.
    + apply map_lookup_filter_Some. by split.
  - apply map_lookup_filter_None. by left.
Qed.

(** X23: [DataCache.clearExpired] keeps exactly the entries whose age is
    within their time to live, a reader cannot tell whether it ran
    ([get] returns the same for every key), and running it twice is
    running it once. *)
Theorem DataCache_clearExpired (now : Z) cache :
  (∀ key c, clearExpired now cache !! key = Some c
            ↔ cache !! key = Some c ∧ now - timestamp c ≤ ttl c)
  ∧ (∀ key, fst (get key now (clearExpired now cache))
            = fst (get key now cache))
  ∧ clearExpired now (clearExpired now cache) = clearExpired now cache.
Proof.
  split; [|split].
  - intros key c. rewrite clearExpired_lookup. unfold isExpired.
    destruct (cache !! key) as [c'|]; [|split; [done|by intros [? _]]].
    destruct (Z.ltb_spec (ttl c') (now - timestamp c')).
    + split; [done|]. intros [[= ->] ?]. lia.
    + split; [intros [= ->]; by split | by intros [? _]].
  - intros key. unfold get. rewrite clearExpired_lookup.
    destruct (cache !! key) as [c|]; [|done].
    destruct (isExpired now c) eqn:He; [done|]. by rewrite He.
  - apply map_eq. intros key. rewrite !clearExpired_lookup.
    destruct (cache !! key) as [c|]; [|done].
    destruct (isExpired now c) eqn:He; [done|]. by rewrite He.
Qed.

End DataCacheFacts.

Lemma DataCache_set_get_witness :
  let cache1 := DataCache.set "adminDashboard_data" "stats"
                  (Some 120000) 1000 ∅ in
  2000 - 1000 ≤ default DataCache.default_ttl (Some 120000)
  ∧ DataCache.get "adminDashboard_data" 2000 cache1 = (Some "stats", cache1).
Proof.
  intros cache1.
  assert (H : 2000 - 1000 ≤ default DataCache.default_ttl (Some 120000))
    by (cbn; lia).
  split; [exact H|].
  exact (proj1 (DataCache_set_get "adminDashboard_data" "stats"
                  (Some 120000) 1000 2000 ∅) H).
Defined.

Section MonitorFacts.
Import PerformanceMonitor.
Context {num : Type}.
Variable zero : num.
Variable sub : num → num → num.
Variable falsy : num → bool.


(** X24: ending a measurement that was never started returns 0 and
    changes nothing; ending a started one returns the time since its
    start and forgets it, so that ending it again returns 0; a
    measurement started at a reading that is falsy (0) is never ended:
    the call returns 0 and the entry stays. *)
Theorem measurement_cycle (name : string) (start now later : num)
    (m : gmap string num) :
  (m !! name = None → endMeasurement zero sub falsy name now m = (zero, m))
  ∧ (falsy start = false →
       endMeasurement zero sub falsy name now (startMeasurement name start m)
       = (sub now start, delete name m)
       ∧ fst (endMeasurement zero sub falsy name later (delete name m)) = zero)
  ∧ (falsy start = true →
       endMeasurement zero sub falsy name now (startMeasurement name start m)
       = (zero, startMeasurement name start m)).
Proof.
  unfold endMeasurement, startMeasurement. split; [|split].
  - by intros ->.
  - intros Hs. rewrite lookup_insert_eq, Hs, delete_insert_eq.
    by rewrite lookup_delete_eq.
  - intros Hs. by rewrite lookup_insert_eq, Hs.
Qed.

End MonitorFacts.

Lemma measurement_cycle_witness :
  let m : gmap string Z := ∅ in
  Z.eqb 0 5 = false
  ∧ PerformanceMonitor.endMeasurement 0 Z.sub (Z.eqb 0) "load" 12
      (PerformanceMonitor.startMeasurement "load" 5 m)
    = (12 - 5, delete "load" m).
Proof.
  intros m. split; [reflexivity|].
  exact (proj1 (proj1 (proj2 (measurement_cycle 0 Z.sub (Z.eqb 0)
                                "load" 5 12 13 m)) eq_refl)).
Defined.

Section MemoizeFacts.
Context {A R : Type}.
Variable fn : A → R.
Variable getKey : A → string.


Lemma memoized_sound (args : A) (cache : gmap string R) :
  cache_sound fn getKey cache →
  cache_sound fn getKey (memoized fn getKey args cache).1.2.
Proof.
  intros Hc. unfold memoized.
  destruct (cache !! getKey args) as [r|] eqn:Hk; cbn; [done|].
  intros k r'. destruct (decide (getKey args = k)) as [<-|Hne].
  - rewrite lookup_insert_eq. intros [= <-]. eauto.
  - rewrite lookup_insert_ne by done. apply Hc.
Qed.

Lemma memoized_same_key (a b : A) (cache : gmap string R) :
  getKey a = getKey b →
  let '(r, cache1, _) := memoized fn getKey a cache in
  memoized fn getKey b cache1 = (r, cache1, false).
Proof.
  intros Hk. unfold memoized. rewrite <- Hk.
  destruct (cache !! getKey a) as [r|] eqn:Ha.
  - by rewrite Ha.
  - by rewrite lookup_insert_eq.
Qed.

Lemma memoized_calls_injective (calls : list A) :
  (∀ a b, getKey a = getKey b → a = b) →
  fst (memoized_calls fn getKey calls ∅) = map fn calls.
Proof.
  intros Hinj.
  assert (Hgen : ∀ cache, cache_sound fn getKey cache →
    fst (memoized_calls fn getKey calls cache) = map fn calls).
  { induction calls as [|a rest IH]; intros cache Hc; [done|].
    cbn [memoized_calls map].
    pose proof (memoized_sound a cache Hc) as Hc'.
    unfold memoized in *.
    destruct (cache !! getKey a) as [r|] eqn:Hk; cbn in *.
    - destruct (Hc _ _ Hk) as (a' & Hka & <-).
      apply Hinj in Hka as ->.
      specialize (IH cache Hc).
      destruct (memoized_calls fn getKey rest cache). cbn in *. by f_equal.
    - specialize (IH _ Hc').
      destruct (memoized_calls fn getKey rest _). cbn in *. by f_equal. }
  apply Hgen. intros k r. by rewrite lookup_empty.
Qed.

(** X25: after a call, a call whose arguments have the same key returns
    the cached result without running [fn], also when the arguments
    differ; so the memoized function returns what [fn] returns on every
    series of calls when the key tells argument lists apart. *)
Theorem memoize_by_key :
  (∀ (a b : A) (cache : gmap string R),
     getKey a = getKey b →
     let '(r, cache1, _) := memoized fn getKey a cache in
     memoized fn getKey b cache1 = (r, cache1, false))
  ∧ ((∀ a b, getKey a = getKey b → a = b) →
     ∀ calls, fst (memoized_calls fn getKey calls ∅) = map fn calls).
Proof.
  split.
  - intros a b cache. apply memoized_same_key.
  - intros Hinj calls. by apply memoized_calls_injective.
Qed.
End MemoizeFacts.

Lemma memoize_by_key_witness :
  (∀ a b : string, id a = id b → a = b)
  ∧ fst (memoized_calls String.length id ["a"; "bb"; "a"] ∅)
    = map String.length ["a"; "bb"; "a"].
Proof.
  assert (Hinj : ∀ a b : string, id a = id b → a = b) by (intros a b H; exact H).
  split; [exact Hinj|].
  exact (proj2 (memoize_by_key String.length id) Hinj ["a"; "bb"; "a"]).
Defined.

Section OptimizeImageFacts.
Variable toString : Z → string.
Variable encode : string → string.


(** X26: [optimizeImage] only ever appends to the URL it is given: the
    result starts with the URL; a URL outside Firebase Storage comes back
    unchanged, and so does any URL when no width and no height is given;
    a width or height of 0 counts as not given. *)
Theorem optimizeImage_keeps_url (url : string) (width height : option Z) :
  String.prefix url (optimizeImage toString encode url width height) = true
  ∧ (includes "firebasestorage.googleapis.com" url = false →
     optimizeImage toString encode url width height = url)
  ∧ optimizeImage toString encode url None None = url
  ∧ optimizeImage toString encode url (Some 0) height
    = optimizeImage toString encode url None height
  ∧ optimizeImage toString encode url width (Some 0)
    = optimizeImage toString encode url width None.
Proof.
  unfold optimizeImage.
  destruct (String.eqb_spec url "") as [->|Hne].
  { repeat split. }
  split; [|split; [|split; [|split]]].
  - destruct (includes "firebasestorage.googleapis.com" url);
      [|apply string_prefix_refl].
    destruct (String.eqb _ ""); [apply string_prefix_refl|].
    apply string_prefix_append.
  - by intros ->.
  - by destruct (includes "firebasestorage.googleapis.com" url).
  - reflexivity.
  - reflexivity.
Qed.

End OptimizeImageFacts.

Lemma optimizeImage_keeps_url_witness :
  includes "firebasestorage.googleapis.com" "https://example.org/a.png"
    = false
  ∧ optimizeImage Browser.toString id "https://example.org/a.png"
      (Some 300) (Some 200)
    = "https://example.org/a.png".
Proof.
  split; [vm_compute; reflexivity|].
  exact (proj1 (proj2 (optimizeImage_keeps_url Browser.toString id
                         "https://example.org/a.png" (Some 300) (Some 200)))
           eq_refl).
Defined.

Section DebounceFacts.
Context {A : Type}.
Implicit Types d : debounced A.


Lemma debounce_step_inv ev d :
  debounce_inv d → debounce_inv (debounce_step ev d).1.
Proof.
  intros [Hp Ht]. destruct ev as [args | id]; cbn.
  - split; cbn.
    + intros id a. destruct (decide (next_id d = id)) as [<-|Hne]; [done|].
      rewrite lookup_insert_ne by done. intros Hid.
      destruct (timeout d) as [old|] eqn:Hold.
      * destruct (decide (old = id)) as [->|Hne'].
        -- by rewrite lookup_delete_eq in Hid.
        -- rewrite lookup_delete_ne in Hid by done.
           apply Hp in Hid. congruence.
      * apply Hp in Hid. congruence.
    + intros id [= <-]. lia.
  - destruct (pending d !! id) as [a|] eqn:Hid; cbn; [|done].
    split; cbn; [|done].
    intros id' a'. destruct (decide (id = id')) as [<-|Hne].
    + by rewrite lookup_delete_eq.
    + rewrite lookup_delete_ne by done. apply Hp.
Qed.

Lemma debounce_run_inv evs d :
  debounce_inv d → debounce_inv (debounce_run evs d).1.
Proof.
  revert d. induction evs as [|ev rest IH]; intros d Hd; [done|].
  cbn [debounce_run]. pose proof (debounce_step_inv ev d Hd) as Hd'.
  destruct (debounce_step ev d) as [d' out]. specialize (IH d' Hd').
  by destruct (debounce_run rest d').
Qed.

Lemma debounce_init_inv : debounce_inv (@debounce_init A).
Proof. split; [intros id a; cbn; by rewrite lookup_empty | done]. Qed.

(** After a call, exactly its callback is pending. *)
Lemma debounce_call_pending d (args : A) :
  debounce_inv d →
  pending (debounce_step (DCall args) d).1 = {[ next_id d := args ]}.
Proof.
  intros [Hp Ht]. cbn. apply map_eq. intros id.
  destruct (decide (next_id d = id)) as [<-|Hne].
  - by rewrite lookup_insert_eq, lookup_singleton_eq.
  - rewrite lookup_insert_ne, lookup_singleton_ne by done.
    destruct (timeout d) as [old|] eqn:Hold.
    + destruct (decide (old = id)) as [->|Hne'];
        [by rewrite lookup_delete_eq|].
      rewrite lookup_delete_ne by done.
      destruct (pending d !! id) as [a|] eqn:Hid; [|done].
      apply Hp in Hid. congruence.
    + destruct (pending d !! id) as [a|] eqn:Hid; [|done].
      apply Hp in Hid. congruence.
Qed.

Lemma debounce_fires_none (fires : list nat) d :
  pending d = ∅ → debounce_run (DFire <$> fires) d = (d, []).
Proof.
  intros Hd. induction fires as [|f rest IH]; [done|].
  cbn [fmap list_fmap debounce_run debounce_step].
  change (list_fmap nat (debounce_event A) DFire rest) with (DFire <$> rest).
  rewrite Hd, lookup_empty. by rewrite IH.
Qed.

(** Timer firings alone invoke what is pending, at most once. *)
Lemma debounce_fires_single (fires : list nat) d (id : nat) (args : A) :
  pending d = {[ id := args ]} →
  (debounce_run (DFire <$> fires) d).2 = []
  ∨ (debounce_run (DFire <$> fires) d).2 = [args].
Proof.
  intros Hd. induction fires as [|f rest IH]; [by left|].
  cbn [fmap list_fmap debounce_run debounce_step].
  change (list_fmap nat (debounce_event A) DFire rest) with (DFire <$> rest).
  rewrite Hd. destruct (decide (id = f)) as [<-|Hne].
  - rewrite lookup_singleton_eq, delete_singleton_eq.
    rewrite debounce_fires_none by done. by right.
  - rewrite lookup_singleton_ne by done.
    destruct (debounce_run (DFire <$> rest) d) as [d' outs]. exact IH.
Qed.

Lemma debounce_run_app (evs1 evs2 : list (debounce_event A)) d :
  debounce_run (evs1 ++ evs2) d
  = let '(d1, out1) := debounce_run evs1 d in
    let '(d2, out2) := debounce_run evs2 d1 in
    (d2, out1 ++ out2).
Proof.
  revert d. induction evs1 as [|ev rest IH]; intros d.
  - cbn. by destruct (debounce_run evs2 d).
  - cbn [app debounce_run]. destruct (debounce_step ev d) as [d' out].
    rewrite IH. destruct (debounce_run rest d') as [d1 out1].
    destruct (debounce_run evs2 d1) as [d2 out2]. by rewrite app_assoc.
Qed.

(** X27: whatever happened before, after a call of the debounced function
    exactly one timer is pending and it carries that call's arguments:
    until the next call, [func] is invoked at most once, and only with
    the arguments of the latest call. *)
Theorem debounce_latest_call (history : list (debounce_event A))
    (args : A) (fires : list nat) :
  let d := (debounce_run (history ++ [DCall args]) debounce_init).1 in
  (∃ id, timeout d = Some id ∧ pending d = {[ id := args ]})
  ∧ ((debounce_run (DFire <$> fires) d).2 = []
     ∨ (debounce_run (DFire <$> fires) d).2 = [args]).
Proof.
  intros d.
  assert (Hd : ∃ id, timeout d = Some id ∧ pending d = {[ id := args ]}).
  { subst d. rewrite debounce_run_app.
    pose proof (debounce_run_inv history debounce_init debounce_init_inv)
      as Hinv.
    destruct (debounce_run history debounce_init) as [d1 out1].
    cbn [fst] in Hinv. cbn [debounce_run].
    pose proof (debounce_call_pending d1 args Hinv) as Hp.
    destruct (debounce_step (DCall args) d1) as [d2 out2] eqn:Hstep.
    cbn [fst] in *. exists (next_id d1). split; [|exact Hp].
    cbn in Hstep. by injection Hstep as <- _. }
  split; [exact Hd|]. destruct Hd as (id & _ & Hp).
  by apply (debounce_fires_single fires d id args).
Qed.

End DebounceFacts.

Section ThrottleFacts.
Context {A : Type}.


Lemma throttle_step_inv (ev : throttle_event A) t :
  throttle_inv t → throttle_inv (throttle_step ev t).1.
Proof.
  unfold throttle_inv. destruct t as [[] n]; destruct ev as [a|]; cbn;
    intros ->; reflexivity.
Qed.

Lemma throttle_run_inv (evs : list (throttle_event A)) t :
  throttle_inv t → throttle_inv (throttle_run evs t).1.
Proof.
  revert t. induction evs as [|ev rest IH]; intros t Ht; [done|].
  cbn [throttle_run]. pose proof (throttle_step_inv ev t Ht) as Ht'.
  destruct (throttle_step ev t) as [t' out]. specialize (IH t' Ht').
  by destruct (throttle_run rest t').
Qed.

Lemma throttle_run_app (evs1 evs2 : list (throttle_event A)) t :
  throttle_run (evs1 ++ evs2) t
  = let '(t1, out1) := throttle_run evs1 t in
    let '(t2, out2) := throttle_run evs2 t1 in
    (t2, out1 ++ out2).
Proof.
  revert t. induction evs1 as [|ev rest IH]; intros t.
  - cbn. by destruct (throttle_run evs2 t).
  - cbn [app throttle_run]. destruct (throttle_step ev t) as [t' out].
    rewrite IH. destruct (throttle_run rest t') as [t1 out1].
    destruct (throttle_run evs2 t1) as [t2 out2]. by rewrite app_assoc.
Qed.

Lemma throttle_count (evs : list (throttle_event A)) t :
  throttle_inv t →
  (length (throttle_run evs t).2 + resets t
   ≤ 1 + length (List.filter is_fire evs))%nat.
Proof.
  revert t. induction evs as [|ev rest IH]; intros t Ht.
  - cbn. unfold throttle_inv in Ht. rewrite Ht. destruct (inThrottle t); lia.
  - cbn [throttle_run].
    pose proof (throttle_step_inv ev t Ht) as Ht'.
    specialize (IH (throttle_step ev t).1 Ht').
    unfold throttle_inv in Ht.
    destruct t as [[] n]; destruct ev as [a|]; cbn in Ht; subst n;
      cbn in *;
      destruct (throttle_run rest _) as [t2 outs]; cbn in *; lia.
Qed.

(** X28: a call of the throttled function that follows another call with
    no reset in between is dropped, and in every run [func] is invoked at
    most once more than reset timers fired. *)
Theorem throttle_drops_calls (history : list (throttle_event A)) (a b : A)
    (evs : list (throttle_event A)) :
  (throttle_run [TCall b]
     (throttle_run (history ++ [TCall a]) throttle_init).1).2 = []
  ∧ (length (throttle_run evs throttle_init).2
     ≤ 1 + length (List.filter is_fire evs))%nat.
Proof.
  split.
  - rewrite throttle_run_app.
    destruct (throttle_run history throttle_init) as [t1 out1].
    cbn [throttle_run throttle_step].
    destruct (inThrottle t1) eqn:Hin; cbn; by rewrite ?Hin.
  - pose proof (throttle_count evs throttle_init eq_refl) as H. lia.
Qed.

End ThrottleFacts.
End PerformanceFacts.

(** ** The admin dashboard's counters *)

Module AdminDashboardFacts.
Import AdminDashboard.
Local Open Scope list_scope.
Local Open Scope nat_scope.


Lemma countUser_bounds (c : counters) (d : string * UserData) :
  legacyPendingRequests c + activeWriters c ≤ totalUsers c →
  activeWriters c + removedWriters c ≤ totalUsers c →
  let c' := countUser c d in
  totalUsers c' = S (totalUsers c)
  ∧ legacyPendingRequests c' + activeWriters c' ≤ totalUsers c'
  ∧ activeWriters c' + removedWriters c' ≤ totalUsers c'.
Proof.
  intros H1 H2. destruct d as [id u]. cbn.
  unfold isRemovedWriter, role_is.
  destruct (role u) as [r|]; cbn.
  - destruct (String.eqb_spec r "infowriter") as [->|Hw]; cbn.
    + rewrite andb_false_r. destruct (previousRoles u);
        rewrite ?andb_false_r; cbn; lia.
    + destruct (requestedWriterAccess u && String.eqb r "user");
        destruct (previousRoles u); cbn;
        repeat (match goal with |- context [if ?b then _ else _] =>
                  destruct b end); cbn; lia.
  - rewrite andb_false_r.
    destruct (previousRoles u); cbn;
      repeat (match goal with |- context [if ?b then _ else _] =>
                destruct b end); cbn; lia.
Qed.

(** X29: the user counters count every document once in [totalUsers];
    no user is counted both as a pending legacy request and as an active
    writer, nor both as an active and as a removed writer, so each of
    these pairs sums to at most [totalUsers]. *)
Theorem countUsers_bounds (docs : list (string * UserData)) :
  let c := countUsers docs in
  totalUsers c = length docs
  ∧ legacyPendingRequests c + activeWriters c ≤ totalUsers c
  ∧ activeWriters c + removedWriters c ≤ totalUsers c.
Proof.
  unfold countUsers.
  assert (Hgen : ∀ c0,
    legacyPendingRequests c0 + activeWriters c0 ≤ totalUsers c0 →
    activeWriters c0 + removedWriters c0 ≤ totalUsers c0 →
    let c := fold_left countUser docs c0 in
    totalUsers c = totalUsers c0 + length docs
    ∧ legacyPendingRequests c + activeWriters c ≤ totalUsers c
    ∧ activeWriters c + removedWriters c ≤ totalUsers c).
  { induction docs as [|d rest IH]; intros c0 H1 H2.
    - cbn. repeat split; lia.
    - cbn [fold_left length].
      destruct (countUser_bounds c0 d H1 H2) as (Ht & H1' & H2').
      destruct (IH _ H1' H2') as (Ht' & ? & ?).
      repeat split; [lia|done..]. }
  cbv zeta.
  destruct (Hgen {| totalUsers := 0; legacyPendingRequests := 0;
                    activeWriters := 0; removedWriters := 0 |})
    as (Ht & H1 & H2); [cbn; lia..|].
  split; [by rewrite Ht|]. by split.
Qed.

Lemma countTag_lookup (m : gmap string nat) (t tag : string) :
  default 0 (countTag m t !! tag)
  = default 0 (m !! tag) + (if bool_decide (t = tag) then 1 else 0).
Proof.
  unfold countTag. case_bool_decide as Ht.
  - subst. by rewrite lookup_insert_eq.
  - rewrite lookup_insert_ne by done. lia.
Qed.

Lemma countTag_fold (ts : list string) (m : gmap string nat) (tag : string) :
  default 0 (fold_left countTag ts m !! tag)
  = default 0 (m !! tag) + occurrences tag ts.
Proof.
  revert m. induction ts as [|t rest IH]; intros m; [cbn; lia|].
  cbn [fold_left]. rewrite IH, countTag_lookup. unfold occurrences.
  rewrite filter_cons. case_bool_decide; case_decide; try done; cbn; lia.
Qed.

(** X30: the tag map holds, for every tag, the number of times it occurs
    in the tag lists of the documents, and it has no entry exactly for
    the tags that never occur. *)
Theorem countTags_occurrences (docs : list ArticleData) (tag : string) :
  default 0 (countTags docs !! tag) = occurrences tag (all_tags docs)
  ∧ (countTags docs !! tag = None ↔ tag ∉ all_tags docs).
Proof.
  assert (Hgen : ∀ m,
    default 0 (fold_left
      (λ tagsMap d,
         match tags d with
         | Some ts => fold_left countTag ts tagsMap
         | None => tagsMap
         end) docs m !! tag)
    = default 0 (m !! tag) + occurrences tag (all_tags docs)).
  { induction docs as [|d rest IH]; intros m; [cbn; lia|].
    cbn [fold_left]. rewrite IH. unfold all_tags, occurrences.
    cbn [map concat]. rewrite filter_app, length_app.
    destruct (tags d) as [ts|]; cbn [default].
    - rewrite countTag_fold. unfold occurrences, id. lia.
    - cbn. lia. }
  split.
  - unfold countTags. rewrite Hgen. by rewrite lookup_empty.
  - assert (Hpos : ∀ m, (∀ k n, m !! k = Some n → 0 < n) →
      ∀ k n, fold_left
        (λ tagsMap d,
           match tags d with
           | Some ts => fold_left countTag ts tagsMap
           | None => tagsMap
           end) docs m !! k = Some n → 0 < n).
    { clear Hgen. induction docs as [|d rest IH]; intros m Hm; [exact Hm|].
      cbn [fold_left]. apply IH. destruct (tags d) as [ts|]; [|exact Hm].
      clear IH. revert m Hm. induction ts as [|t ts' IHt]; intros m Hm;
        [exact Hm|].
      cbn [fold_left]. apply IHt. intros k n. unfold countTag.
      destruct (decide (t = k)) as [->|Hne].
      - rewrite lookup_insert_eq. intros [= <-]. lia.
      - rewrite lookup_insert_ne by done. apply Hm. }
    assert (Hocc : occurrences tag (all_tags docs) = 0 ↔ tag ∉ all_tags docs).
    { unfold occurrences. generalize (all_tags docs) as l.
      induction l as [|x l IH]; [cbn; split; [intros _; apply not_elem_of_nil|done]|].
      rewrite filter_cons, not_elem_of_cons. case_decide as Hx; cbn.
      - split; [lia|]. intros [Hne _]. by subst.
      - rewrite IH. split; [intros ?; split; [by intros ->|done]|tauto]. }
    rewrite <- Hocc. unfold countTags in *.
    specialize (Hgen ∅). rewrite lookup_empty in Hgen. cbn in Hgen.
    destruct (fold_left _ docs ∅ !! tag) as [n|] eqn:Hn.
    + apply Hpos in Hn; [|intros k n'; by rewrite lookup_empty].
      cbn in Hgen. split; [done|]. lia.
    + split; [intros _|done]. cbn in Hgen. lia.
Qed.

End AdminDashboardFacts.
